(** * msc_pygeoapi.loader.aqhi_realtime: a shallow embedding

    The Python module [msc_pygeoapi/loader/aqhi_realtime.py] loads AQHI
    forecast and observation files into Elasticsearch and cleans old
    indexes.  This development embeds the module's functions as Rocq
    functions over explicit state (the loader object, the module-level
    [SETTINGS] dictionary, the log of connector calls) and proves
    properties of them.

    Python dictionaries that the code uses as maps are [gmap string _];
    dictionaries whose iteration order the code relies on are association
    lists.  Python exceptions are the constructors of [pyerr]. *)

From Equations Require Import Equations.
From stdpp Require Import gmap strings list fin_maps.
From Stdlib Require Import ZArith Ascii String Lia Sorted.

Local Open Scope string_scope.
Local Open Scope Z_scope.

Set Warnings "-register-all".

(** ** Python values and exceptions *)

Module Py.

(** The values [json.load] produces, which are also the values the loader
    stores in documents.  A float is kept as its literal: the module never
    computes with one. *)
Inductive pyvalue : Type :=
| PyNone
| PyBool (b : bool)
| PyInt (n : Z)
| PyFloat (lit : string)
| PyStr (s : string)
| PyList (l : list pyvalue)
| PyDict (d : gmap string pyvalue).

Inductive pyerr : Type :=
| KeyError (key : string)
| TypeError
| AttributeError
| UnboundLocalError (var : string)
| ValueError
| OSError.

Inductive result (A : Type) : Type :=
| Ok (a : A)
| Raise (e : pyerr).
Arguments Ok {A} a.
Arguments Raise {A} e.

Definition bind {A B} (r : result A) (k : A -> result B) : result B :=
  match r with
  | Ok a => k a
  | Raise e => Raise e
  end.

(** [obj[key]] for a string key: a dict is looked up, every other value
    refuses a string subscript. *)
Definition getitem (obj : pyvalue) (key : string) : result pyvalue :=
  match obj with
  | PyDict d =>
      match d !! key with
      | Some v => Ok v
      | None => Raise (KeyError key)
      end
  | _ => Raise TypeError
  end.

(** [iter(obj)] unrolled: the elements a [for] loop visits.  A dict is
    visited by its keys, a string by its characters. *)
Definition iterate (obj : pyvalue) : result (list pyvalue) :=
  match obj with
  | PyList l => Ok l
  | PyDict d => Ok (PyStr <$> (map_to_list d).*1)
  | PyStr s => Ok ((fun c => PyStr (String c EmptyString)) <$> list_ascii_of_string s)
  | _ => Raise TypeError
  end.

(** [fmt.format(args...)] for formats whose fields are all the automatic
    field [{}].  Every call in the module passes as many arguments as the
    format has fields; a field with no argument left is rendered empty. *)
Fixpoint format (fmt : string) (args : list string) : string :=
  match fmt with
  | String "{" (String "}" rest) =>
      match args with
      | a :: args' => a ++ format rest args'
      | [] => format rest []
      end
  | String c rest => String c (format rest args)
  | EmptyString => EmptyString
  end.

(** [sep.join(parts)] *)
Fixpoint join (sep : string) (parts : list string) : string :=
  match parts with
  | [] => ""
  | [p] => p
  | p :: ps => p ++ sep ++ join sep ps
  end.

(** [s.split(sep)] for a separator of one character; [cur] is the part
    being read. *)
Fixpoint split (sep : ascii) (cur : string) (s : string) : list string :=
  match s with
  | EmptyString => [cur]
  | String c rest =>
      if Ascii.eqb c sep then cur :: split sep "" rest
      else split sep (cur ++ String c "") rest
  end.

(** [repr] of a list of strings that need no escaping, as index names. *)
Definition repr_list (l : list string) : string :=
  "[" ++ join ", " ((fun s => "'" ++ s ++ "'") <$> l) ++ "]".

(** [str(x)] of an optional string attribute ([None] prints as its name). *)
Definition str_of (x : option string) : string :=
  match x with
  | Some s => s
  | None => "None"
  end.

End Py.
Import Py.

(** ** pathlib: the final component of a POSIX path *)

Module Pathlib.

(** [Path(p).name]: empty components and ["."] components are dropped when
    the path is built, and the name is the last one that remains. *)
Definition name (p : string) : string :=
  let parts :=
    List.filter (fun c => negb (String.eqb c "" || String.eqb c "."))
                (split "/" "" p) in
  List.last parts "".

End Pathlib.

(** ** The [parse] library: matching a format against a string *)

Module Parse.

Inductive elem : Type :=
| Lit (s : string)
| Field (name : string).

(** A format is compiled to its literals and its named fields; a field
    without a type is the pattern [.+?]. *)
Fixpoint field_name (s : string) : option (string * string) :=
  match s with
  | EmptyString => None
  | String c rest =>
      if Ascii.eqb c "}" then Some ("", rest)
      else match field_name rest with
           | Some (n, r) => Some (String c n, r)
           | None => None
           end
  end.

Fixpoint compile_aux (fuel : nat) (lit : string) (s : string) : list elem :=
  match fuel with
  | O => []
  | S fuel' =>
      match s with
      | EmptyString => if String.eqb lit "" then [] else [Lit lit]
      | String c rest =>
          if Ascii.eqb c "{" then
            match field_name rest with
            | Some (n, r) =>
                (if String.eqb lit "" then [] else [Lit lit])
                  ++ Field n :: compile_aux fuel' "" r
            | None => compile_aux fuel' (lit ++ String c "") rest
            end
          else compile_aux fuel' (lit ++ String c "") rest
      end
  end.

Definition compile (fmt : string) : list elem :=
  compile_aux (S (String.length fmt)) "" fmt.

(** The library matches without regard to case. *)
Definition lower (c : ascii) : ascii :=
  let n := nat_of_ascii c in
  if ((65 <=? n)%nat && (n <=? 90)%nat)%bool then ascii_of_nat (n + 32) else c.

Fixpoint strip_literal (lit s : string) : option string :=
  match lit, s with
  | EmptyString, _ => Some s
  | String a lit', String b s' =>
      if Ascii.eqb (lower a) (lower b) then strip_literal lit' s' else None
  | String _ _, EmptyString => None
  end.

(** A field takes the fewest characters (at least one) that let the rest
    of the pattern, [k], match, as the backtracking matcher of [re] finds
    it for [.+?]. *)
Fixpoint shortest (k : string -> option (gmap string string)) (n : string)
    (taken : string) (s : string) : option (gmap string string) :=
  match s with
  | EmptyString => None
  | String c s' =>
      let taken' := taken ++ String c "" in
      match k s' with
      | Some named => Some (<[n := taken']> named)
      | None => shortest k n taken' s'
      end
  end.

(** The regular expression is anchored at both ends. *)
Fixpoint match_elems (p : list elem) (s : string) : option (gmap string string) :=
  match p with
  | [] => if String.eqb s "" then Some ∅ else None
  | Lit l :: p' =>
      match strip_literal l s with
      | Some s' => match_elems p' s'
      | None => None
      end
  | Field n :: p' => shortest (match_elems p') n "" s
  end.

(** [parse(format, string)]: the named fields, or [None]. *)
Definition parse (fmt : string) (s : string) : option (gmap string string) :=
  match_elems (compile fmt) s.

End Parse.

(** ** datetime: [strptime] with ['%Y%m%d%H%M'], [strftime] with ['%Y-%m-%d'] *)

Module Datetime.

Record datetime : Type := mkDatetime {
  year : Z;
  month : Z;
  day : Z;
  hour : Z;
  minute : Z
}.

Definition digit (c : ascii) : option Z :=
  let n := Z.of_nat (nat_of_ascii c) in
  if (48 <=? n) && (n <=? 57) then Some (n - 48) else None.

Definition digit_in (lo hi : Z) (c : ascii) : option Z :=
  match digit c with
  | Some d => if (lo <=? d) && (d <=? hi) then Some d else None
  | None => None
  end.

(** One alternative of a directive's regular expression: it reads a number
    at the head of the string and leaves the rest. *)
Definition alt : Type := string -> option (Z * string).

(** One digit in a range, as [[1-9]]. *)
Definition one (lo hi : Z) : alt := fun s =>
  match s with
  | String c rest =>
      match digit_in lo hi c with
      | Some d => Some (d, rest)
      | None => None
      end
  | EmptyString => None
  end.

(** Two digits, each in its range, as [1[0-2]] or [[0-5]\d]. *)
Definition two (lo1 hi1 lo2 hi2 : Z) : alt := fun s =>
  match s with
  | String c1 (String c2 rest) =>
      match digit_in lo1 hi1 c1, digit_in lo2 hi2 c2 with
      | Some d1, Some d2 => Some (10 * d1 + d2, rest)
      | _, _ => None
      end
  | _ => None
  end.

(** A space and a digit, the last alternative of [%d]. *)
Definition blank_one (lo hi : Z) : alt := fun s =>
  match s with
  | String c rest => if Ascii.eqb c " " then one lo hi rest else None
  | EmptyString => None
  end.

(** Four digits, [\d\d\d\d]. *)
Definition four : alt := fun s =>
  match two 0 9 0 9 s with
  | Some (hi, rest) =>
      match two 0 9 0 9 rest with
      | Some (lo, rest') => Some (100 * hi + lo, rest')
      | None => None
      end
  | None => None
  end.

(** The alternatives of each directive, in the order [_strptime] lists
    them. *)
Definition directive_Y : list alt := [four].
Definition directive_m : list alt := [two 1 1 0 2; two 0 0 1 9; one 1 9].
Definition directive_d : list alt :=
  [two 3 3 0 1; two 1 2 0 9; two 0 0 1 9; one 1 9; blank_one 1 9].
Definition directive_H : list alt := [two 2 2 0 3; two 0 1 0 9; one 0 9].
Definition directive_M : list alt := [two 0 5 0 9; one 0 9].

(** [re.match] on a sequence of directives: the first way to match them
    all, trying each directive's alternatives in order and backtracking
    into earlier directives.  The expression is not anchored at its end. *)
Fixpoint regex_match (ds : list (list alt)) (s : string) : option (list Z * string) :=
  match ds with
  | [] => Some ([], s)
  | d :: ds' =>
      (fix try (alts : list alt) : option (list Z * string) :=
         match alts with
         | [] => None
         | a :: alts' =>
             match a s with
             | Some (v, rest) =>
                 match regex_match ds' rest with
                 | Some (vs, rest') => Some (v :: vs, rest')
                 | None => try alts'
                 end
             | None => try alts'
             end
         end) d
  end.

Definition is_leap (y : Z) : bool :=
  (y mod 4 =? 0) && (negb (y mod 100 =? 0) || (y mod 400 =? 0)).

Definition days_in_month (y m : Z) : Z :=
  if m =? 2 then (if is_leap y then 29 else 28)
  else if (m =? 4) || (m =? 6) || (m =? 9) || (m =? 11) then 30
  else 31.

(** The checks of the [datetime] constructor. *)
Definition valid_date (y m d : Z) : bool :=
  (1 <=? y) && (y <=? 9999) && (1 <=? m) && (m <=? 12)
  && (1 <=? d) && (d <=? days_in_month y m).

(** [datetime.strptime(s, '%Y%m%d%H%M')]: no match, text left after the
    match, or a date that does not exist raise [ValueError]. *)
Definition strptime_YmdHM (s : string) : result datetime :=
  match regex_match [directive_Y; directive_m; directive_d; directive_H; directive_M] s with
  | Some ([y; m; d; h; mi], EmptyString) =>
      if valid_date y m d then Ok (mkDatetime y m d h mi) else Raise ValueError
  | _ => Raise ValueError
  end.

Definition digit_char (n : Z) : ascii := ascii_of_nat (Z.to_nat (48 + n mod 10)).

Definition pad2 (n : Z) : string :=
  String (digit_char (n / 10)) (String (digit_char n) "").

Definition pad4 (n : Z) : string := pad2 (n / 100) ++ pad2 n.

(** [dt.strftime('%Y-%m-%d')], the year written with four digits as the
    Python documentation gives it. *)
Definition strftime_Y_m_d (dt : datetime) : string :=
  pad4 (year dt) ++ "-" ++ pad2 (month dt) ++ "-" ++ pad2 (day dt).

(** Days since 1970-01-01 of a proleptic Gregorian date. *)
Definition days_from_civil (y m d : Z) : Z :=
  let y' := if m <=? 2 then y - 1 else y in
  let era := y' / 400 in
  let yoe := y' - era * 400 in
  let mp := (m + 9) mod 12 in
  let doy := (153 * mp + 2) / 5 + d - 1 in
  let doe := yoe * 365 + yoe / 4 - yoe / 100 + doy in
  era * 146097 + doe - 719468.

End Datetime.

(** ** The module's constants *)

(** [# cleanup settings] *)
Definition DAYS_TO_KEEP : Z := 366.

(** [# index settings] *)
Definition INDEX_BASENAME : string := "aqhi_realtime_{}.".

Definition text_keyword : pyvalue :=
  PyDict (list_to_map
    [("type", PyStr "text");
     ("fields", PyDict (list_to_map
        [("raw", PyDict (list_to_map [("type", PyStr "keyword")]))]))]).

Definition strict_date : pyvalue :=
  PyDict (list_to_map
    [("type", PyStr "date"); ("format", PyStr "strict_date_time_no_millis")]).

Definition mapping_of (fields : list (string * pyvalue)) : pyvalue :=
  PyDict (list_to_map
    [("properties", PyDict (list_to_map
       [("geometry", PyDict (list_to_map [("type", PyStr "geo_shape")]));
        ("properties", PyDict (list_to_map
           [("properties", PyDict (list_to_map fields))]))]))]).

(** [MAPPINGS]: its keys are visited in the order they are written. *)
Definition MAPPINGS : list (string * pyvalue) :=
  [("forecasts", mapping_of
      [("ID", text_keyword);
       ("aqhi_type", text_keyword);
       ("region_name_en", text_keyword);
       ("region_name_fr", text_keyword);
       ("region", text_keyword);
       ("datetime_utc", strict_date);
       ("datetime_text_en", text_keyword);
       ("datetime_text_fr", text_keyword);
       ("hourly_forecast_utc", strict_date);
       ("aqhi", PyDict (list_to_map [("type", PyStr "byte")]))]);
   ("observations", mapping_of
      [("ID", text_keyword);
       ("aqhi_type", text_keyword);
       ("region_name_en", text_keyword);
       ("region_name_fr", text_keyword);
       ("region", text_keyword);
       ("datetime_utc", strict_date);
       ("datetime_text_en", text_keyword);
       ("datetime_text_fr", text_keyword);
       ("aqhi", PyDict (list_to_map [("type", PyStr "float")]))])].

(** [SETTINGS] as the module holds it when it is imported.  It is one
    dictionary, shared by every loader of the process. *)
Definition SETTINGS : gmap string pyvalue :=
  list_to_map
    [("order", PyInt 0);
     ("version", PyInt 1);
     ("index_patterns", PyNone);
     ("settings", PyDict (list_to_map
        [("number_of_shards", PyInt 1); ("number_of_replicas", PyInt 0)]));
     ("mappings", PyNone)].

(** ** The Elasticsearch connector, seen from the module *)

(** A bulk action, the dictionary [generate_geojson_features] yields. *)
Record action : Type := mkAction {
  _id : pyvalue;
  _index : string;
  _op_type : string;
  doc : pyvalue;
  doc_as_upsert : bool
}.

(** The calls the module makes on its connector.  [create_template]
    receives the [SETTINGS] dictionary itself; the call is recorded with
    what the dictionary holds when the call is made. *)
Inductive conn_call : Type :=
| create_template (name : string) (settings : gmap string pyvalue)
| bulk (actions : list action)
| get (pattern : string)
| delete_ (indexes : string).

(** ** class AqhiRealtimeLoader *)

(** The attributes of a loader object. *)
Record AqhiRealtimeLoader : Type := mkLoader {
  filepath : option string;
  type : option string;
  region : option string;
  date_ : option Datetime.datetime;
  items : list pyvalue
}.

Definition set_filepath (self : AqhiRealtimeLoader) (v : string) : AqhiRealtimeLoader :=
  mkLoader (Some v) (type self) (region self) (date_ self) (items self).
Definition set_type (self : AqhiRealtimeLoader) (v : string) : AqhiRealtimeLoader :=
  mkLoader (filepath self) (Some v) (region self) (date_ self) (items self).
Definition set_region (self : AqhiRealtimeLoader) (v : string) : AqhiRealtimeLoader :=
  mkLoader (filepath self) (type self) (Some v) (date_ self) (items self).
Definition set_date_ (self : AqhiRealtimeLoader) (v : Datetime.datetime) : AqhiRealtimeLoader :=
  mkLoader (filepath self) (type self) (region self) (Some v) (items self).
Definition append_item (self : AqhiRealtimeLoader) (v : pyvalue) : AqhiRealtimeLoader :=
  mkLoader (filepath self) (type self) (region self) (date_ self) (items self ++ [v]).

(** The loop of [__init__]: for each key of [MAPPINGS] the shared
    dictionary is overwritten in place and passed to [create_template].
    The function takes the dictionary as the module holds it and returns it
    as the loop leaves it, with the calls made. *)
Fixpoint install_templates (mappings : list (string * pyvalue))
    (settings : gmap string pyvalue) : gmap string pyvalue * list conn_call :=
  match mappings with
  | [] => (settings, [])
  | (aqhi_type, mapping) :: rest =>
      let template_name := format INDEX_BASENAME [aqhi_type] in
      let settings1 :=
        <["index_patterns" := PyList [PyStr (format "{}*" [template_name])]]> settings in
      let settings2 := <["mappings" := mapping]> settings1 in
      let '(settings', calls) := install_templates rest settings2 in
      (settings', create_template template_name settings2 :: calls)
  end.

(** [AqhiRealtimeLoader.__init__]: the new object, the module's [SETTINGS]
    afterwards, and the connector calls. *)
Definition init (settings : gmap string pyvalue)
    : AqhiRealtimeLoader * gmap string pyvalue * list conn_call :=
  let self := mkLoader None None None None [] in
  let '(settings', calls) := install_templates MAPPINGS settings in
  (self, settings', calls).

(** [parse_filename]: the status it returns or the exception it raises,
    and the object as the call leaves it. *)
Definition parse_filename (self : AqhiRealtimeLoader)
    : result bool * AqhiRealtimeLoader :=
  let pattern := "AQ_{type}_{region}_{date_}.json" in
  match filepath self with
  | None => (Raise AttributeError, self)
  | Some path =>
      let filename := Pathlib.name path in
      match Parse.parse pattern filename with
      | None => (Raise AttributeError, self)
      | Some named =>
          match named !! "type" with
          | None => (Raise (KeyError "type"), self)
          | Some type_ =>
              let self1 :=
                if String.eqb type_ "FCST" then set_type self "forecasts" else self in
              let self2 :=
                if String.eqb type_ "OBS" then set_type self1 "observations" else self1 in
              match named !! "region" with
              | None => (Raise (KeyError "region"), self2)
              | Some region_ =>
                  let self3 := set_region self2 region_ in
                  match named !! "date_" with
                  | None => (Raise (KeyError "date_"), self3)
                  | Some text =>
                      match Datetime.strptime_YmdHM text with
                      | Raise e => (Raise e, self3)
                      | Ok dt => (Ok true, set_date_ self3 dt)
                      end
                  end
              end
          end
      end
  end.

Definition type_is (self : AqhiRealtimeLoader) (t : string) : bool :=
  match type self with
  | Some t' => String.eqb t' t
  | None => false
  end.

(** A generator object of [generate_geojson_features]: not started, stopped
    at its [yield] with the features still to visit, or finished. *)
Inductive generator : Type :=
| Created
| Suspended (features : list pyvalue)
| Closed.

(** What one [next] on the generator gives. *)
Inductive produced : Type :=
| Yield (a : action)
| StopIteration
| Raised (e : pyerr).

Section WithFiles.

(** What [json.load] gives for the file at a path, or the exception that
    opening or decoding it raises. *)
Variable fs : string -> result pyvalue.

(** The generator's code up to its loop: the file is read whole and
    [features] is bound, or not bound when the type is neither of the two;
    the loop then asks for an iterator over it. *)
Definition features_of (self : AqhiRealtimeLoader) : result (list pyvalue) :=
  match filepath self with
  | None => Raise AttributeError
  | Some path =>
      bind (fs path) (fun data =>
        if type_is self "forecasts" then
          bind (getitem data "features") iterate
        else if type_is self "observations" then
          iterate (PyList [data])
        else Raise (UnboundLocalError "features"))
  end.

(** One turn of the loop, up to its [yield]. *)
Definition transform (self : AqhiRealtimeLoader) (feature : pyvalue)
    : result (action * AqhiRealtimeLoader) :=
  (* set document id *)
  bind (getitem feature "ID") (fun identity =>
    match feature with
    | PyDict d =>
        let d1 := <["id" := identity]> d in
        (* clean out unnecessery properties *)
        let d2 := delete "ID" d1 in
        let feature' := PyDict d2 in
        (* set ES index name for feature *)
        match date_ self with
        | None => Raise AttributeError
        | Some dt =>
            let es_index :=
              format "{}{}" [format INDEX_BASENAME [str_of (type self)];
                             Datetime.strftime_Y_m_d dt] in
            let self' := append_item self feature' in
            bind (getitem feature' "id") (fun id =>
              Ok (mkAction id es_index "update" feature' true, self'))
        end
    | _ => Raise TypeError
    end).

Definition resume (self : AqhiRealtimeLoader) (features : list pyvalue)
    : produced * generator * AqhiRealtimeLoader :=
  match features with
  | [] => (StopIteration, Closed, self)
  | feature :: rest =>
      match transform self feature with
      | Ok (a, self') => (Yield a, Suspended rest, self')
      | Raise e => (Raised e, Closed, self)
      end
  end.

(** [next(g)] for a generator [g] of [generate_geojson_features]. *)
Definition next (self : AqhiRealtimeLoader) (g : generator)
    : produced * generator * AqhiRealtimeLoader :=
  match g with
  | Created =>
      match features_of self with
      | Ok features => resume self features
      | Raise e => (Raised e, Closed, self)
      end
  | Suspended features => resume self features
  | Closed => (StopIteration, Closed, self)
  end.

(** [generate_geojson_features()]: calling it runs nothing. *)
Definition generate_geojson_features (self : AqhiRealtimeLoader) : generator :=
  Created.

End WithFiles.

Section Loading.

Variable fs : string -> result pyvalue.

(** How many more times [next] can be called before the generator is
    finished; it bounds the loop of the connector. *)
Definition remaining (self : AqhiRealtimeLoader) (g : generator) : nat :=
  match g with
  | Created =>
      match features_of fs self with
      | Ok features => S (S (List.length features))
      | Raise _ => 1
      end
  | Suspended features => S (List.length features)
  | Closed => 0
  end.

(** Case analysis on a [next] that yielded: the generator it leaves has
    one feature less to visit. *)
Ltac next_yielded H :=
  match type of H with
  | next _ ?self ?g = _ =>
      destruct g as [|[|? ?]|]; simpl in H;
      repeat match type of H with
        | context [features_of ?f ?s] => destruct (features_of f s) as [[|? ?]|?] eqn:?; simpl in H
        | context [transform ?s ?x] => destruct (transform s x) as [[? ?]|?]
        end;
      try discriminate H; injection H as <- <- <-
  end.

Definition inspect {A : Type} (a : A) : {b : A | a = b} := exist _ a eq_refl.

(** How a submission ends. *)
Inductive outcome : Type :=
| Done
| Failed (e : pyerr).

(** Modelled from the spec: [submit_elastic_package] of the connector
    (msc_pygeoapi.connector.elasticsearch_) is not among the sources.  It
    consumes the lazy sequence and submits fixed-size batches: actions are
    pulled one at a time into the current batch, a batch that has reached
    the batch size is submitted before the next action is pulled, whatever
    is left when the sequence ends is submitted as the last batch, and the
    first exception stops the submission and is propagated, the batches
    already submitted staying submitted. *)
Equations? submit_loop (request_size : nat) (self : AqhiRealtimeLoader)
    (package : generator) (batch : list action)
    : outcome * AqhiRealtimeLoader * list conn_call
    by wf (remaining self package) lt :=
  submit_loop request_size self package batch with inspect (next fs self package) := {
    | exist _ (Yield a, package', self') _ =>
        let batch' := (batch ++ [a])%list in
        if (List.length batch' =? request_size)%nat then
          let '(o, self'', calls) := submit_loop request_size self' package' [] in
          (o, self'', bulk batch' :: calls)
        else submit_loop request_size self' package' batch';
    | exist _ (StopIteration, _, self') _ =>
        (Done, self', match batch with [] => [] | _ => [bulk batch] end);
    | exist _ (Raised e, _, self') _ => (Failed e, self', []) }.
Proof.
  all: match goal with H : next _ _ _ = _ |- _ => next_yielded H end.
  all: simpl; repeat match goal with E : features_of _ _ = _ |- _ => rewrite E end.
  all: simpl; lia.
Qed.

(** Modelled from the spec: [submit_elastic_package(package, request_size)]
    starts the loop above with an empty batch. *)
Definition submit_elastic_package (self : AqhiRealtimeLoader)
    (package : generator) (request_size : nat)
    : outcome * AqhiRealtimeLoader * list conn_call :=
  submit_loop request_size self package [].

(** [load_data(filepath)]: the value returned or the exception raised, the
    object afterwards, and the connector calls made. *)
Definition load_data (self : AqhiRealtimeLoader) (path : string)
    : result pyvalue * AqhiRealtimeLoader * list conn_call :=
  let self0 := set_filepath self path in
  (* set class variables from filename *)
  match parse_filename self0 with
  | (Raise e, self1) => (Raise e, self1, [])
  | (Ok _, self1) =>
      (* generate geojson features *)
      let package := generate_geojson_features self1 in
      match submit_elastic_package self1 package (Z.to_nat 80000) with
      | (Done, self2, calls) => (Ok (PyBool true), self2, calls)
      | (Failed e, self2, calls) => (Raise e, self2, calls)
      end
  end.

End Loading.

(** ** The command [clean_indexes] *)

(** Modelled from the spec: [check_es_indexes_to_delete] of msc_pygeoapi.util
    is not among the sources.  The trailing date component of each name is
    extracted; a name whose trailing date does not parse is excluded; the
    cutoff is the current UTC date minus the retention days, and a name is
    selected iff its date is strictly earlier than the cutoff. *)
Definition trailing_date (name : string) : option Z :=
  match Datetime.four (List.last (split "." "" name) "") with
  | Some (y, String "-" rest) =>
      match Datetime.two 0 9 0 9 rest with
      | Some (m, String "-" rest') =>
          match Datetime.two 0 9 0 9 rest' with
          | Some (d, EmptyString) =>
              if Datetime.valid_date y m d
              then Some (Datetime.days_from_civil y m d) else None
          | _ => None
          end
      | _ => None
      end
  | _ => None
  end.

(** Modelled from the spec: the selection of [check_es_indexes_to_delete],
    the names strictly older than the cutoff, for a given current date. *)
Definition retention_select (today : Datetime.datetime)
    (indexes : list string) (days : Z) : list string :=
  let cutoff :=
    Datetime.days_from_civil (Datetime.year today) (Datetime.month today)
                             (Datetime.day today) - days in
  List.filter (fun name =>
                 match trailing_date name with
                 | Some d => d <? cutoff
                 | None => false
                 end) indexes.

(** What the command does that can be seen from outside: its calls on the
    connector and the lines it prints. *)
Inductive cli_event : Type :=
| Call (c : conn_call)
| Echo (msg : string).

Section Cleaning.

(** The names the connector's [get] answers for a pattern. *)
Variable conn_get : string -> list string.

(** The imported [check_es_indexes_to_delete]. *)
Variable check_es_indexes_to_delete : list string -> Z -> list string.

(** [clean_indexes(ctx, days, dataset, ...)], once the prompt is answered. *)
Definition clean_indexes (days : Z) (dataset : string) : list cli_event :=
  let indexes_to_fetch :=
    if String.eqb dataset "all"
    then format "{}*" [format INDEX_BASENAME ["*"]]
    else format "{}*" [format INDEX_BASENAME [dataset]] in
  let indexes := conn_get indexes_to_fetch in
  (Call (get indexes_to_fetch)
   :: match indexes with
      | [] => []
      | _ :: _ =>
          let indexes_to_delete := check_es_indexes_to_delete indexes days in
          match indexes_to_delete with
          | [] => []
          | _ :: _ =>
              [Echo (format "Deleting indexes {}" [repr_list indexes_to_delete]);
               Call (delete_ (join "," indexes))]
          end
      end)
  ++ [Echo "Done"].

End Cleaning.

(** The names a [delete] call removes: its argument is a comma-separated
    list. *)
Definition deleted_names (events : list cli_event) : list string :=
  List.flat_map (fun ev =>
                   match ev with
                   | Call (delete_ arg) => split "," "" arg
                   | _ => []
                   end) events.

(** ** The commands [add] and [delete_indexes] *)

(** [s.endswith(suffix)] *)
Definition endswith (s suffix : string) : bool :=
  let n := String.length s in
  let k := String.length suffix in
  (k <=? n)%nat && String.eqb (String.substring (n - k) k s) suffix.

(** [os.path.join(root, f)] on POSIX paths. *)
Definition path_join (root f : string) : string :=
  match f with
  | String "/" _ => f
  | _ =>
      if String.eqb root "" || endswith root "/" then root ++ f
      else root ++ "/" ++ f
  end.

(** [l.sort(key=key)]: the sort is stable, an element goes before the
    first one whose key is not smaller. *)
Fixpoint insert_by {A : Type} (key : A -> Z) (x : A) (l : list A) : list A :=
  match l with
  | [] => [x]
  | y :: l' => if key x <=? key y then x :: l else y :: insert_by key x l'
  end.

Definition sort_by {A : Type} (key : A -> Z) (l : list A) : list A :=
  List.fold_right (insert_by key) [] l.

(** The truth value of an object in an [if].  A float is false when it is
    zero: its literal has no digit other than 0 before the exponent. *)
Fixpoint zero_literal (lit : string) : bool :=
  match lit with
  | EmptyString => true
  | String c rest =>
      if Ascii.eqb c "e" || Ascii.eqb c "E" then true
      else match Datetime.digit_in 1 9 c with
           | Some _ => false
           | None => zero_literal rest
           end
  end.

Definition truthy (v : pyvalue) : bool :=
  match v with
  | PyNone => false
  | PyBool b => b
  | PyInt n => negb (n =? 0)
  | PyFloat lit => negb (zero_literal lit)
  | PyStr s => negb (String.eqb s "")
  | PyList l => match l with [] => false | _ => true end
  | PyDict d => negb (bool_decide (d = ∅))
  end.

(** How a command ends when it does not return: with the error it raises
    itself or with an exception nothing catches. *)
Inductive cli_error : Type :=
| ClickException (msg : string)
| Uncaught (e : pyerr).

Section Adding.

Variable fs : string -> result pyvalue.

(** [os.walk(directory)]: the directories visited, each with the names of
    its subdirectories and of its files. *)
Variable walk : string -> list (string * list string * list string).

(** [os.path.getmtime], in a unit fine enough to be an integer. *)
Variable getmtime : string -> Z.

(** The imported [json_pretty_print]. *)
Variable json_pretty_print : list pyvalue -> string.

(** The list [add] builds before it loads anything. *)
Definition files_to_process (file_ directory : option string) : list string :=
  match file_, directory with
  | Some f, _ => [f]
  | None, Some d =>
      sort_by getmtime
        (List.flat_map
           (fun '(root, dirs, files) =>
              path_join root <$> List.filter (fun f => endswith f ".json") files)
           (walk d))
  | None, None => []
  end.

(** The loop of [add] over the files: a new loader for each file, then its
    load, then the line printed when the load returns a true value.  The
    function takes the module's [SETTINGS] and returns it as the loop leaves
    it. *)
Fixpoint add_loop (files : list string) (settings : gmap string pyvalue)
    : option cli_error * gmap string pyvalue * list cli_event :=
  match files with
  | [] => (None, settings, [])
  | file_to_process :: rest =>
      let '(loader, settings', installed) := init settings in
      match load_data fs loader file_to_process with
      | (Raise e, _, calls) =>
          (Some (Uncaught e), settings', Call <$> (installed ++ calls)%list)
      | (Ok result, loader', calls) =>
          let printed :=
            if truthy result
            then [Echo (format "GeoJSON features generated: {}"
                               [json_pretty_print (items loader')])]
            else [] in
          let '(r, settings'', events) := add_loop rest settings' in
          (r, settings'', ((Call <$> (installed ++ calls)) ++ printed ++ events)%list)
      end
  end.

(** [add(ctx, file_, directory, ...)] *)
Definition add (file_ directory : option string) (settings : gmap string pyvalue)
    : option cli_error * gmap string pyvalue * list cli_event :=
  match file_, directory with
  | None, None =>
      (Some (ClickException "Missing --file/-f or --dir/-d option"), settings, [])
  | _, _ => add_loop (files_to_process file_ directory) settings
  end.

End Adding.


(** ** Notions the statements use *)

Section Views.

Variable fs : string -> result pyvalue.

(** The features a generator has still to visit. *)
Definition pending (self : AqhiRealtimeLoader) (g : generator)
    : result (list pyvalue) :=
  match g with
  | Created => features_of fs self
  | Suspended features => Ok features
  | Closed => Ok []
  end.

(** [n] calls of [next], stopping early when the generator stops: the
    actions obtained, the generator and the object afterwards. *)
Fixpoint pull (n : nat) (self : AqhiRealtimeLoader) (g : generator)
    : list action * generator * AqhiRealtimeLoader :=
  match n with
  | O => ([], g, self)
  | S n' =>
      match next fs self g with
      | (Yield a, g', self') =>
          let '(acts, g'', self'') := pull n' self' g' in
          (a :: acts, g'', self'')
      | (_, g', self') => ([], g', self')
      end
  end.

End Views.

(** The loop of the generator run to its end over a list of features: the
    actions yielded, the object afterwards, and the exception that ended
    the run if one did. *)
Fixpoint emit (self : AqhiRealtimeLoader) (features : list pyvalue)
    : list action * AqhiRealtimeLoader * option pyerr :=
  match features with
  | [] => ([], self, None)
  | feature :: rest =>
      match transform self feature with
      | Ok (a, self') =>
          let '(acts, self'', e) := emit self' rest in
          (a :: acts, self'', e)
      | Raise e => ([], self, Some e)
      end
  end.

(** The batches the connector submits when it is fed [acts] with [batch]
    already pulled; [flush] tells whether the sequence ends normally, so
    that what is left is submitted too. *)
Fixpoint batches (request_size : nat) (batch : list action)
    (acts : list action) (flush : bool) : list conn_call :=
  match acts with
  | [] =>
      if flush then match batch with [] => [] | _ => [bulk batch] end else []
  | a :: acts' =>
      let batch' := (batch ++ [a])%list in
      if (List.length batch' =? request_size)%nat
      then bulk batch' :: batches request_size [] acts' flush
      else batches request_size batch' acts' flush
  end.

(** The actions submitted by a sequence of connector calls. *)
Definition submitted (calls : list conn_call) : list action :=
  List.flat_map (fun c => match c with bulk acts => acts | _ => [] end) calls.


(** A feature that carries the identity field. *)
Definition has_identity (feature : pyvalue) : Prop :=
  exists d v, feature = PyDict d /\ d !! "ID" = Some v.

(** The attributes of the object that the generator reads. *)
Definition same_config (s s' : AqhiRealtimeLoader) : Prop :=
  filepath s = filepath s' /\ type s = type s' /\ date_ s = date_ s'.

(** The index name the loop computes. *)
Definition es_index_of (self : AqhiRealtimeLoader) (dt : Datetime.datetime) : string :=
  ("aqhi_realtime_" ++ str_of (type self) ++ "." ++ Datetime.strftime_Y_m_d dt)%string.

(** ** Sample inputs *)

Module Samples.

(** The observation payload [{"ID": "R001", "aqhi": 3.2}]. *)
Definition observation : pyvalue :=
  PyDict (list_to_map [("ID", PyStr "R001"); ("aqhi", PyFloat "3.2")]).

(** A forecast payload with two features. *)
Definition forecast : pyvalue :=
  PyDict (list_to_map
    [("features", PyList
       [PyDict (list_to_map [("ID", PyStr "A"); ("aqhi", PyInt 3)]);
        PyDict (list_to_map [("ID", PyStr "B"); ("aqhi", PyInt 4)])])]).

(** A feature with its identity and one without. *)
Definition good : pyvalue :=
  PyDict (list_to_map [("ID", PyStr "A"); ("aqhi", PyInt 3)]).

(** A forecast payload with the given features. *)
Definition forecast_of (features : list pyvalue) : pyvalue :=
  PyDict (list_to_map [("features", PyList features)]).

(** A file system with one file, whatever the path asked. *)
Definition only (data : pyvalue) : string -> result pyvalue := fun _ => Ok data.

(** A loader as [__init__] leaves it. *)
Definition fresh : AqhiRealtimeLoader := (init SETTINGS).1.1.

(** A loader that has parsed a forecast file name. *)
Definition parsed : AqhiRealtimeLoader :=
  mkLoader (Some "AQ_FCST_ON_202403150600.json") (Some "forecasts") (Some "ON")
           (Some (Datetime.mkDatetime 2024 3 15 6 0)) [].

(** A loader that has parsed an observation file name. *)
Definition parsed_observation : AqhiRealtimeLoader :=
  mkLoader (Some "AQ_OBS_ON_202403150600.json") (Some "observations") (Some "ON")
           (Some (Datetime.mkDatetime 2024 3 15 6 0)) [].

Definition today : Datetime.datetime := Datetime.mkDatetime 2025 1 1 0 0.

Definition existing (pattern : string) : list string :=
  ["aqhi_realtime_forecasts.2023-12-01"; "aqhi_realtime_forecasts.2024-06-01"].

End Samples.

(** ** Notions the further statements use *)

(** Whether a character occurs in a string. *)
Fixpoint has_char (c : ascii) (s : string) : bool :=
  match s with
  | EmptyString => false
  | String c' rest => Ascii.eqb c' c || has_char c rest
  end.

(** The twelve digits that ['%Y%m%d%H%M'] stands for. *)
Definition timestamp (y m d h mi : Z) : string :=
  Datetime.pad4 y ++ Datetime.pad2 m ++ Datetime.pad2 d
  ++ Datetime.pad2 h ++ Datetime.pad2 mi.

(** A file name of the shape the loader expects. *)
Definition aqhi_filename (token region_ stamp : string) : string :=
  "AQ_" ++ token ++ "_" ++ region_ ++ "_" ++ stamp ++ ".json".

(** A date and time of day that exist. *)
Definition valid_datetime (dt : Datetime.datetime) : Prop :=
  Datetime.valid_date (Datetime.year dt) (Datetime.month dt) (Datetime.day dt) = true
  /\ 0 <= Datetime.hour dt <= 23 /\ 0 <= Datetime.minute dt <= 59.

(** A file that a loader just constructed loads without an exception. *)
Definition loads (fs : string -> result pyvalue) (path : string) : Prop :=
  exists v, (load_data fs (mkLoader None None None None []) path).1.1 = Ok v.


(** ** Sample directory *)

Module Directory.

(** A directory with a forecast file, a file whose name does not match, an
    observation file and a file that is not JSON by its name. *)
Definition walk (directory : string) : list (string * list string * list string) :=
  [("/d", ["sub"], ["AQ_OBS_ON_202403150600.json"; "notes.txt";
                    "AQ_FCST_ON_202403150600.json"]);
   ("/d/sub", [], ["readme.json"])].

Definition getmtime (path : string) : Z :=
  if String.eqb path "/d/AQ_FCST_ON_202403150600.json" then 1
  else if String.eqb path "/d/sub/readme.json" then 2
  else 3.

Definition fs (path : string) : result pyvalue :=
  if String.eqb path "/d/AQ_FCST_ON_202403150600.json" then Ok Samples.forecast
  else Ok Samples.observation.

Definition json_pretty_print (l : list pyvalue) : string := "[...]".

End Directory.

(** * Properties *)

(** ** Strings and formats *)

Lemma append_nil_r (s : string) : (s ++ "")%string = s.
Proof.
  induction s as [|c s IH]; [reflexivity|].
  change (String c (s ++ "")%string = String c s). now rewrite IH.
Qed.

Lemma append_assoc (s t u : string) :
  ((s ++ t) ++ u)%string = (s ++ (t ++ u))%string.
Proof.
  induction s as [|c s IH]; [reflexivity|].
  change (String c ((s ++ t) ++ u)%string = String c (s ++ (t ++ u))%string).
  now rewrite IH.
Qed.

(** The index name is [aqhi_realtime_<type>.<date>]. *)
Lemma es_index_of_format (self : AqhiRealtimeLoader) (dt : Datetime.datetime) :
  format "{}{}" [format INDEX_BASENAME [str_of (type self)];
                 Datetime.strftime_Y_m_d dt]
  = es_index_of self dt.
Proof.
  unfold es_index_of, INDEX_BASENAME.
  generalize (str_of (type self)) (Datetime.strftime_Y_m_d dt). intros t d.
  change (("aqhi_realtime_" ++ (t ++ ".")) ++ (d ++ "") = "aqhi_realtime_" ++ (t ++ ("." ++ d)))%string.
  rewrite append_nil_r, !append_assoc. reflexivity.
Qed.

(** ** One turn of the loop *)

Lemma transform_inv (self self' : AqhiRealtimeLoader) (feature : pyvalue) (a : action) :
  transform self feature = Ok (a, self') ->
  exists d v dt,
    feature = PyDict d /\ d !! "ID" = Some v /\ date_ self = Some dt /\
    a = mkAction v (es_index_of self dt) "update"
                 (PyDict (delete "ID" (<["id" := v]> d))) true /\
    self' = append_item self (PyDict (delete "ID" (<["id" := v]> d))).
Proof.
  unfold transform, getitem, bind.
  destruct feature as [| | | | | |d]; try discriminate.
  destruct (d !! "ID") as [v|] eqn:Hid; [|discriminate].
  destruct (date_ self) as [dt|]; [|discriminate].
  rewrite lookup_delete_ne by discriminate.
  rewrite lookup_insert_eq, es_index_of_format.
  intros [= <- <-]. exists d, v, dt. repeat split; assumption.
Qed.

Lemma transform_ok (self : AqhiRealtimeLoader) (d : gmap string pyvalue)
    (v : pyvalue) (dt : Datetime.datetime) :
  d !! "ID" = Some v -> date_ self = Some dt ->
  transform self (PyDict d)
  = Ok (mkAction v (es_index_of self dt) "update"
                 (PyDict (delete "ID" (<["id" := v]> d))) true,
        append_item self (PyDict (delete "ID" (<["id" := v]> d)))).
Proof.
  intros Hid Hdt. unfold transform, getitem, bind. rewrite Hid, Hdt.
  rewrite lookup_delete_ne by discriminate.
  rewrite lookup_insert_eq, es_index_of_format. reflexivity.
Qed.


Lemma same_config_refl s : same_config s s.
Proof. repeat split. Qed.

Lemma same_config_append s s' v : same_config s s' -> same_config s (append_item s' v).
Proof. intros (? & ? & ?). repeat split; assumption. Qed.

Lemma same_config_sym s s' : same_config s s' -> same_config s' s.
Proof. intros (? & ? & ?). repeat split; congruence. Qed.

Lemma same_config_trans s1 s2 s3 :
  same_config s1 s2 -> same_config s2 s3 -> same_config s1 s3.
Proof. intros (? & ? & ?) (? & ? & ?). repeat split; congruence. Qed.

(** The action of a turn depends on the object through its type and date
    only; the object changes by one more item. *)
Lemma transform_same_config (s s' : AqhiRealtimeLoader) (feature : pyvalue) :
  same_config s s' ->
  match transform s feature with
  | Ok (a, s1) =>
      transform s' feature = Ok (a, append_item s' (doc a))
      /\ s1 = append_item s (doc a)
  | Raise e => transform s' feature = Raise e
  end.
Proof.
  intros (Hf & Ht & Hd).
  destruct (transform s feature) as [[a s1]|e] eqn:H.
  - apply transform_inv in H as (d & v & dt & -> & Hid & Hdt & -> & ->).
    rewrite (transform_ok s' d v dt Hid) by congruence.
    unfold es_index_of. rewrite Ht. split; reflexivity.
  - revert H. unfold transform, getitem, bind.
    destruct feature as [| | | | | |d]; try (intros [= <-]; reflexivity).
    destruct (d !! "ID") as [v|]; [|intros [= <-]; reflexivity].
    rewrite <- Hd. destruct (date_ s); [|intros [= <-]; reflexivity].
    rewrite lookup_delete_ne by discriminate. rewrite lookup_insert_eq. discriminate.
Qed.

(** ** The generator and the connector's loop *)

Section LoopFacts.

Variable fs : string -> result pyvalue.

(** The loop of the connector, one [next] at a time. *)
Lemma submit_loop_step (request_size : nat) (self : AqhiRealtimeLoader)
    (package : generator) (batch : list action) :
  submit_loop fs request_size self package batch
  = match next fs self package with
    | (Yield a, package', self') =>
        let batch' := (batch ++ [a])%list in
        if (List.length batch' =? request_size)%nat then
          let '(o, self'', calls) := submit_loop fs request_size self' package' [] in
          (o, self'', bulk batch' :: calls)
        else submit_loop fs request_size self' package' batch'
    | (StopIteration, _, self') =>
        (Done, self', match batch with [] => [] | _ => [bulk batch] end)
    | (Raised e, _, self') => (Failed e, self', [])
    end.
Proof.
  funelim (submit_loop fs request_size self package batch).
  all: match goal with H : next _ _ _ = _ |- _ => rewrite H end.
  all: reflexivity.
Qed.

(** From a generator stopped at its [yield], the loop submits the actions
    of the remaining features in batches. *)
Lemma submit_loop_suspended (request_size : nat) (features : list pyvalue) :
  forall (self : AqhiRealtimeLoader) (batch : list action),
    submit_loop fs request_size self (Suspended features) batch
    = let '(acts, self', e) := emit self features in
      (match e with None => Done | Some e => Failed e end,
       self',
       batches request_size batch acts (match e with None => true | Some _ => false end)).
Proof.
  induction features as [|feature rest IH]; intros self batch.
  - rewrite submit_loop_step. reflexivity.
  - rewrite submit_loop_step. simpl.
    destruct (transform self feature) as [[a self1]|e]; [|reflexivity].
    rewrite !IH. destruct (emit self1 rest) as [[acts self2] e]. simpl.
    destruct (List.length (batch ++ [a]) =? request_size)%nat; reflexivity.
Qed.

(** The same from a generator not yet started, whose first [next] reads the
    file. *)
Lemma submit_loop_created (request_size : nat) (self : AqhiRealtimeLoader)
    (batch : list action) :
  submit_loop fs request_size self Created batch
  = match features_of fs self with
    | Ok features => submit_loop fs request_size self (Suspended features) batch
    | Raise e => (Failed e, self, [])
    end.
Proof.
  rewrite submit_loop_step. simpl.
  destruct (features_of fs self) as [features|e]; [|reflexivity].
  now rewrite (submit_loop_step _ _ (Suspended features)).
Qed.

End LoopFacts.

(** ** The loop run to its end *)

Lemma emit_same_config (features : list pyvalue) :
  forall s s' acts s1 e,
    same_config s s' ->
    emit s features = (acts, s1, e) ->
    exists s1', emit s' features = (acts, s1', e)
                /\ same_config s1 s1' /\ same_config s s1.
Proof.
  induction features as [|feature rest IH]; intros s s' acts s1 e Hc; simpl.
  - intros [= <- <- <-]. exists s'. auto using same_config_refl.
  - pose proof (transform_same_config s s' feature Hc) as Ht.
    destruct (transform s feature) as [[a s2]|err].
    + destruct Ht as [-> ->].
      destruct (emit (append_item s (doc a)) rest) as [[acts2 s3] e2] eqn:He.
      intros [= <- <- <-].
      destruct (IH _ (append_item s' (doc a)) _ _ _
                  (same_config_append _ _ _
                     (same_config_sym _ _ (same_config_append _ _ (doc a)
                        (same_config_sym _ _ Hc)))) He)
        as (s3' & -> & Hc3 & Hc4).
      exists s3'. repeat split; try apply Hc3.
      all: destruct Hc4 as (? & ? & ?); simpl in *; congruence.
    + rewrite Ht. intros [= <- <- <-]. exists s'. auto using same_config_refl.
Qed.

Lemma emit_items (features : list pyvalue) :
  forall s acts s1 e,
    emit s features = (acts, s1, e) ->
    items s1 = (items s ++ (doc <$> acts))%list.
Proof.
  induction features as [|feature rest IH]; intros s acts s1 e; simpl.
  - intros [= <- <- <-]. now rewrite app_nil_r.
  - destruct (transform s feature) as [[a s2]|err] eqn:Ht.
    + apply transform_inv in Ht as (d & v & dt & -> & Hid & Hdt & -> & ->).
      destruct (emit _ rest) as [[acts2 s3] e2] eqn:He.
      intros [= <- <- <-]. rewrite (IH _ _ _ _ He). simpl.
      now rewrite <- app_assoc.
    + intros [= <- <- <-]. now rewrite app_nil_r.
Qed.


Lemma emit_all (features : list pyvalue) :
  forall s dt,
    Forall has_identity features -> date_ s = Some dt ->
    exists acts s1, emit s features = (acts, s1, None)
                    /\ List.length acts = List.length features.
Proof.
  induction features as [|feature rest IH]; intros s dt Hall Hdt; simpl.
  - now exists [], s.
  - apply Forall_cons in Hall as [(d & v & -> & Hid) Hall].
    rewrite (transform_ok s d v dt Hid Hdt).
    destruct (IH (append_item s (PyDict (delete "ID" (<["id" := v]> d))))
                dt Hall Hdt) as (acts & s1 & -> & Hlen).
    eexists _, s1. split; [reflexivity|]. simpl. now rewrite Hlen.
Qed.


(** ** Batches *)


Lemma submitted_batches_flush (request_size : nat) (acts : list action) :
  forall batch,
    submitted (batches request_size batch acts true) = (batch ++ acts)%list.
Proof.
  induction acts as [|a acts IH]; intros batch; simpl.
  - rewrite app_nil_r. destruct batch; [reflexivity|]. simpl. now rewrite app_nil_r.
  - destruct (_ =? _)%nat; simpl; rewrite IH; simpl; now rewrite <- app_assoc.
Qed.


(** ** [load_data] as a whole *)

Lemma load_data_emit (fs : string -> result pyvalue)
    (self : AqhiRealtimeLoader) (path : string) :
  load_data fs self path
  = match parse_filename (set_filepath self path) with
    | (Raise e, s1) => (Raise e, s1, [])
    | (Ok _, s1) =>
        match features_of fs s1 with
        | Raise e => (Raise e, s1, [])
        | Ok features =>
            let '(acts, s2, e) := emit s1 features in
            (match e with None => Ok (PyBool true) | Some e => Raise e end,
             s2,
             batches (Z.to_nat 80000) [] acts
                     (match e with None => true | Some _ => false end))
        end
    end.
Proof.
  unfold load_data, submit_elastic_package, generate_geojson_features.
  destruct (parse_filename (set_filepath self path)) as [[b|e] s1]; [|reflexivity].
  rewrite submit_loop_created.
  destruct (features_of fs s1) as [features|e]; [|reflexivity].
  rewrite submit_loop_suspended.
  destruct (emit s1 features) as [[acts s2] [e|]]; reflexivity.
Qed.

(** What [parse_filename] leaves in the object when it returns. *)
Lemma parse_filename_returns (self s1 : AqhiRealtimeLoader) (b : bool) :
  parse_filename self = (Ok b, s1) ->
  b = true /\ filepath s1 = filepath self /\ items s1 = items self
  /\ exists dt, date_ s1 = Some dt.
Proof.
  unfold parse_filename.
  destruct (filepath self) as [path|] eqn:Hp; [|discriminate].
  destruct (Parse.parse _ _) as [named|]; [|discriminate].
  destruct (named !! "type") as [t|]; [|discriminate].
  destruct (named !! "region") as [r|]; [|discriminate].
  destruct (named !! "date_") as [text|]; [|discriminate].
  destruct (Datetime.strptime_YmdHM text) as [dt|]; [|discriminate].
  intros [= <- <-].
  destruct (String.eqb t "FCST"), (String.eqb t "OBS"); simpl; eauto 6.
Qed.



(** ** Sample runs *)


Example parsed_observation_name :
  parse_filename (set_filepath Samples.fresh "AQ_OBS_ON_202403150600.json")
  = (Ok true, Samples.parsed_observation).
Proof. vm_compute. reflexivity. Qed.

(** The directory of the path and the case of the literals do not matter;
    a field takes the text up to the next underscore that lets the rest
    match. *)
Example parsed_in_directory :
  parse_filename (set_filepath Samples.fresh "/data/aqhi/./aq_OBS_BC_202501010000.JSON")
  = (Ok true,
     mkLoader (Some "/data/aqhi/./aq_OBS_BC_202501010000.JSON")
              (Some "observations") (Some "BC")
              (Some (Datetime.mkDatetime 2025 1 1 0 0)) []).
Proof. vm_compute. reflexivity. Qed.

Example name_not_matching :
  parse_filename (set_filepath Samples.fresh "AQ_FCST_202403150600.json")
  = (Raise AttributeError, set_filepath Samples.fresh "AQ_FCST_202403150600.json").
Proof. vm_compute. reflexivity. Qed.

Example date_not_a_date :
  (parse_filename (set_filepath Samples.fresh "AQ_FCST_ON_202402300600.json")).1
  = Raise ValueError.
Proof. vm_compute. reflexivity. Qed.

(** The observation scenario: one action, with the identity as its id, a
    document without ID, and the index of the issue date. *)
Example observation_scenario :
  load_data (Samples.only Samples.observation) Samples.fresh
            "AQ_OBS_ON_202403150600.json"
  = (Ok (PyBool true),
     append_item Samples.parsed_observation
       (PyDict (list_to_map [("id", PyStr "R001"); ("aqhi", PyFloat "3.2")])),
     [bulk [mkAction (PyStr "R001") "aqhi_realtime_observations.2024-03-15" "update"
              (PyDict (list_to_map [("id", PyStr "R001"); ("aqhi", PyFloat "3.2")]))
              true]]).
Proof. vm_compute. reflexivity. Qed.

(** A forecast file: one action for each feature, in one batch. *)
Example forecast_scenario :
  (load_data (Samples.only Samples.forecast) Samples.fresh
             "AQ_FCST_ON_202403150600.json").2
  = [bulk [mkAction (PyStr "A") "aqhi_realtime_forecasts.2024-03-15" "update"
             (PyDict (list_to_map [("id", PyStr "A"); ("aqhi", PyInt 3)])) true;
           mkAction (PyStr "B") "aqhi_realtime_forecasts.2024-03-15" "update"
             (PyDict (list_to_map [("id", PyStr "B"); ("aqhi", PyInt 4)])) true]].
Proof. vm_compute. reflexivity. Qed.

(** A payload that is not a JSON object cannot be subscripted. *)
Example forecast_not_an_object :
  (load_data (Samples.only (PyList [Samples.good])) Samples.fresh
             "AQ_FCST_ON_202403150600.json").1.1
  = Raise TypeError.
Proof. vm_compute. reflexivity. Qed.

(** The templates a construction installs. *)
Example templates_installed :
  (fun c => match c with create_template name _ => name | _ => "" end)
    <$> (init SETTINGS).2
  = ["aqhi_realtime_forecasts."; "aqhi_realtime_observations."].
Proof. vm_compute. reflexivity. Qed.

(** ** The claims *)


(** *** File names *)

Lemma match_field_inv (n : string) (p : list Parse.elem) (s : string)
    (m : gmap string string) :
  Parse.match_elems (Parse.Field n :: p) s = Some m ->
  exists taken named rest,
    m = <[n := taken]> named /\ Parse.match_elems p rest = Some named.
Proof.
  simpl. generalize "". revert m.
  induction s as [|c s IH]; intros m taken; [discriminate|]. simpl.
  destruct (Parse.match_elems p s) as [named|] eqn:Hrest.
  - intros [= <-]. eauto.
  - apply IH.
Qed.

Lemma match_lit_inv (l : string) (p : list Parse.elem) (s : string)
    (m : gmap string string) :
  Parse.match_elems (Parse.Lit l :: p) s = Some m ->
  exists rest, Parse.match_elems p rest = Some m.
Proof. simpl. destruct (Parse.strip_literal l s); [eauto|discriminate]. Qed.

(** A file name that matches the pattern gives the three fields. *)
Lemma parse_named (s : string) (named : gmap string string) :
  Parse.parse "AQ_{type}_{region}_{date_}.json" s = Some named ->
  exists t r d,
    named !! "type" = Some t /\ named !! "region" = Some r
    /\ named !! "date_" = Some d.
Proof.
  unfold Parse.parse.
  change (Parse.compile "AQ_{type}_{region}_{date_}.json")
    with [Parse.Lit "AQ_"; Parse.Field "type"; Parse.Lit "_";
          Parse.Field "region"; Parse.Lit "_"; Parse.Field "date_";
          Parse.Lit ".json"].
  intros H.
  apply match_lit_inv in H as (s1 & H).
  apply match_field_inv in H as (t & m1 & s2 & -> & H).
  apply match_lit_inv in H as (s3 & H).
  apply match_field_inv in H as (r & m2 & s4 & -> & H).
  apply match_lit_inv in H as (s5 & H).
  apply match_field_inv in H as (d & m3 & s6 & -> & H).
  exists t, r, d. repeat split.
  - apply lookup_insert_eq.
  - rewrite lookup_insert_ne by discriminate. apply lookup_insert_eq.
  - rewrite !lookup_insert_ne by discriminate. apply lookup_insert_eq.
Qed.

(** C4, as the code has it: a file name that matches the pattern and whose
    type token is neither FCST nor OBS raises no error of its own.
    [parse_filename] leaves the type of the loader as it was, sets the
    region, and returns True once the date is read (a date that cannot be
    read raises ValueError).  The load of such a file by a loader that has
    no type yet then raises, and nothing is submitted. *)
Theorem unknown_type_token (self : AqhiRealtimeLoader) (path : string)
    (named : gmap string string) (t : string) :
  Parse.parse "AQ_{type}_{region}_{date_}.json" (Pathlib.name path) = Some named ->
  named !! "type" = Some t -> t <> "FCST" -> t <> "OBS" ->
  exists r text,
    named !! "region" = Some r /\ named !! "date_" = Some text
    /\ parse_filename (set_filepath self path)
       = match Datetime.strptime_YmdHM text with
         | Ok dt => (Ok true, set_date_ (set_region (set_filepath self path) r) dt)
         | Raise e => (Raise e, set_region (set_filepath self path) r)
         end
    /\ type (parse_filename (set_filepath self path)).2 = type self
    /\ forall fs, type self = None ->
         exists e s, load_data fs self path = (Raise e, s, []).
Proof.
  intros Hparse Htype Hf Ho.
  destruct (parse_named _ _ Hparse) as (t' & r & text & Ht' & Hr & Hd).
  exists r, text. split; [exact Hr|]. split; [exact Hd|].
  assert (Hpf : parse_filename (set_filepath self path)
       = match Datetime.strptime_YmdHM text with
         | Ok dt => (Ok true, set_date_ (set_region (set_filepath self path) r) dt)
         | Raise e => (Raise e, set_region (set_filepath self path) r)
         end).
  { unfold parse_filename.
    change (filepath (set_filepath self path)) with (Some path).
    cbv iota beta. rewrite Hparse, Htype, Hr, Hd.
    apply String.eqb_neq in Hf, Ho. rewrite Hf, Ho.
    destruct (Datetime.strptime_YmdHM text); reflexivity. }
  split; [exact Hpf|]. split.
  - rewrite Hpf. destruct (Datetime.strptime_YmdHM text); reflexivity.
  - intros fs Hnone. rewrite load_data_emit, Hpf.
    destruct (Datetime.strptime_YmdHM text) as [dt|e]; [|eauto].
    unfold features_of, type_is. simpl. rewrite Hnone.
    destruct (fs path); simpl; eauto.
Qed.

Lemma unknown_type_token_witness :
  exists r text,
    (<["type" := "XYZ"]> (<["region" := "ON"]> (<["date_" := "202403150600"]> ∅))
       : gmap string string) !! "region" = Some r
    /\ (<["type" := "XYZ"]> (<["region" := "ON"]> (<["date_" := "202403150600"]> ∅))
       : gmap string string) !! "date_" = Some text
    /\ parse_filename (set_filepath Samples.fresh "AQ_XYZ_ON_202403150600.json")
       = match Datetime.strptime_YmdHM text with
         | Ok dt =>
             (Ok true,
              set_date_ (set_region
                (set_filepath Samples.fresh "AQ_XYZ_ON_202403150600.json") r) dt)
         | Raise e =>
             (Raise e,
              set_region (set_filepath Samples.fresh "AQ_XYZ_ON_202403150600.json") r)
         end
    /\ type (parse_filename
               (set_filepath Samples.fresh "AQ_XYZ_ON_202403150600.json")).2
       = type Samples.fresh
    /\ forall fs, type Samples.fresh = None ->
         exists e s,
           load_data fs Samples.fresh "AQ_XYZ_ON_202403150600.json" = (Raise e, s, []).
Proof.
  apply (unknown_type_token Samples.fresh "AQ_XYZ_ON_202403150600.json" _ "XYZ").
  - vm_compute. reflexivity.
  - vm_compute. reflexivity.
  - discriminate.
  - discriminate.
Defined.

(** C4 as stated fails: a file name with the type token XYZ is parsed
    without an error, and the loader is left with a region and a date but
    no type. *)
Lemma unknown_type_token_accepted :
  parse_filename (set_filepath Samples.fresh "AQ_XYZ_ON_202403150600.json")
  = (Ok true,
     mkLoader (Some "AQ_XYZ_ON_202403150600.json") None (Some "ON")
              (Some (Datetime.mkDatetime 2024 3 15 6 0)) []).
Proof. vm_compute. reflexivity. Qed.

(** *** Loading a file again *)

Lemma features_of_same_config (fs : string -> result pyvalue)
    (s s' : AqhiRealtimeLoader) :
  same_config s s' -> features_of fs s = features_of fs s'.
Proof.
  intros (Hf & Ht & _). unfold features_of, type_is. now rewrite Hf, Ht.
Qed.

(** [parse_filename] reads the object's path and, for a token that is
    neither FCST nor OBS, its type; run from an object with the same path
    and with the type it started from or the type it has left, it ends the
    same way. *)
Lemma parse_filename_again (s s' s1 : AqhiRealtimeLoader) (r : result bool) :
  parse_filename s = (r, s1) ->
  filepath s' = filepath s ->
  type s' = type s \/ type s' = type s1 ->
  exists s1',
    parse_filename s' = (r, s1')
    /\ (forall b, r = Ok b -> same_config s1 s1').
Proof.
  unfold parse_filename. intros H Hpath Htype. rewrite Hpath.
  destruct (filepath s) as [path|] eqn:Hp;
    [|injection H as <- <-; eexists; split; [reflexivity|discriminate]].
  destruct (Parse.parse _ _) as [named|];
    [|injection H as <- <-; eexists; split; [reflexivity|discriminate]].
  destruct (named !! "type") as [t|];
    [|injection H as <- <-; eexists; split; [reflexivity|discriminate]].
  destruct (named !! "region") as [reg|];
    [|injection H as <- <-; eexists; split; [reflexivity|discriminate]].
  destruct (named !! "date_") as [text|];
    [|injection H as <- <-; eexists; split; [reflexivity|discriminate]].
  destruct (Datetime.strptime_YmdHM text) as [dt|e];
    [|injection H as <- <-; eexists; split; [reflexivity|discriminate]].
  injection H as <- <-. eexists. split; [reflexivity|].
  intros _ _. revert Htype.
  destruct (String.eqb t "FCST"), (String.eqb t "OBS"); simpl;
    intros [Htype|Htype]; repeat split; simpl; congruence.
Qed.

(** The outcome of a load and what it submits depend on the loader through
    its type only, and the type a load leaves gives the same as the type it
    found. *)
Lemma load_data_depends_on_type (fs : string -> result pyvalue)
    (s s' : AqhiRealtimeLoader) (path : string) :
  type s' = type s \/ type s' = type (load_data fs s path).1.2 ->
  (load_data fs s' path).1.1 = (load_data fs s path).1.1
  /\ (load_data fs s' path).2 = (load_data fs s path).2.
Proof.
  rewrite (load_data_emit fs s path).
  destruct (parse_filename (set_filepath s path)) as [r s1] eqn:Hparse.
  destruct r as [b|e].
  - destruct (features_of fs s1) as [features|e] eqn:Hf.
    + destruct (emit s1 features) as [[acts s2] err] eqn:He. simpl.
      destruct (emit_same_config _ _ _ _ _ _ (same_config_refl s1) He)
        as (_ & _ & _ & _ & Ht12 & _).
      rewrite <- Ht12. intros Htype.
      destruct (parse_filename_again _ (set_filepath s' path) _ _ Hparse)
        as (s1' & Hparse' & Hc); [reflexivity|exact Htype|].
      specialize (Hc b eq_refl).
      rewrite load_data_emit, Hparse', <- (features_of_same_config fs _ _ Hc), Hf.
      destruct (emit_same_config _ _ _ _ _ _ Hc He) as (s2' & -> & _).
      split; reflexivity.
    + simpl. intros Htype.
      destruct (parse_filename_again _ (set_filepath s' path) _ _ Hparse)
        as (s1' & Hparse' & Hc); [reflexivity|exact Htype|].
      specialize (Hc b eq_refl).
      rewrite load_data_emit, Hparse', <- (features_of_same_config fs _ _ Hc), Hf.
      split; reflexivity.
  - simpl. intros Htype.
    destruct (parse_filename_again _ (set_filepath s' path) _ _ Hparse)
      as (s1' & Hparse' & _); [reflexivity|exact Htype|].
    rewrite load_data_emit, Hparse'. split; reflexivity.
Qed.

(** C7: loading the same file a second time with the same loader ends the
    same way (the same value returned or the same exception) and submits
    the same batches of the same actions: same document ids, same indexes,
    same document bodies.  So does loading it with any other loader that
    has the same type, whatever its other attributes and its items. *)
Theorem load_data_idempotent (fs : string -> result pyvalue)
    (self : AqhiRealtimeLoader) (path : string) :
  (load_data fs (load_data fs self path).1.2 path).1.1
  = (load_data fs self path).1.1
  /\ (load_data fs (load_data fs self path).1.2 path).2
     = (load_data fs self path).2
  /\ forall path' region' date' items',
       (load_data fs (mkLoader path' (type self) region' date' items') path).1.1
       = (load_data fs self path).1.1
       /\ (load_data fs (mkLoader path' (type self) region' date' items') path).2
          = (load_data fs self path).2.
Proof.
  destruct (load_data_depends_on_type fs self (load_data fs self path).1.2 path)
    as [H1 H2]; [now right|].
  split; [exact H1|]. split; [exact H2|].
  intros path' region' date' items'.
  apply load_data_depends_on_type. now left.
Qed.

(** *** The actions the generator yields *)

Lemma next_yield_inv (fs : string -> result pyvalue) (self self' : AqhiRealtimeLoader)
    (g g' : generator) (a : action) :
  next fs self g = (Yield a, g', self') ->
  exists feature rest,
    pending fs self g = Ok (feature :: rest)
    /\ transform self feature = Ok (a, self')
    /\ g' = Suspended rest.
Proof.
  destruct g as [|features|]; simpl; [|intros H|discriminate].
  - destruct (features_of fs self) as [features|e]; [|discriminate]. intros H.
    destruct features as [|feature rest]; simpl in H; [discriminate|].
    destruct (transform self feature) as [[a0 s0]|e] eqn:Ht; [|discriminate].
    injection H as <- <- <-. exists feature, rest. auto.
  - destruct features as [|feature rest]; simpl in H; [discriminate|].
    destruct (transform self feature) as [[a0 s0]|e] eqn:Ht; [|discriminate].
    injection H as <- <- <-. exists feature, rest. auto.
Qed.

(** C10: an action the generator yields is an update with doc_as_upsert
    set, its _id is the value the feature had under ID, and the document
    holds that value under id. *)
Theorem yielded_action_is_upsert (fs : string -> result pyvalue)
    (self self' : AqhiRealtimeLoader) (g g' : generator) (a : action) :
  next fs self g = (Yield a, g', self') ->
  exists feature rest d v body,
    pending fs self g = Ok (feature :: rest)
    /\ feature = PyDict d /\ d !! "ID" = Some v
    /\ _op_type a = "update" /\ doc_as_upsert a = true
    /\ _id a = v
    /\ doc a = PyDict body /\ body !! "id" = Some v.
Proof.
  intros H. apply next_yield_inv in H as (feature & rest & Hp & Ht & _).
  apply transform_inv in Ht as (d & v & dt & -> & Hid & _ & -> & _).
  exists (PyDict d), rest, d, v, (delete "ID" (<["id" := v]> d)).
  repeat split; try assumption. simpl.
  rewrite lookup_delete_ne by discriminate. apply lookup_insert_eq.
Qed.

Lemma yielded_action_is_upsert_witness :
  exists feature rest d v body,
    pending (Samples.only Samples.observation) Samples.parsed_observation Created
    = Ok (feature :: rest)
    /\ feature = PyDict d /\ d !! "ID" = Some v
    /\ _op_type (mkAction (PyStr "R001") "aqhi_realtime_observations.2024-03-15"
                   "update"
                   (PyDict (list_to_map [("id", PyStr "R001"); ("aqhi", PyFloat "3.2")]))
                   true) = "update"
    /\ doc_as_upsert (mkAction (PyStr "R001") "aqhi_realtime_observations.2024-03-15"
                   "update"
                   (PyDict (list_to_map [("id", PyStr "R001"); ("aqhi", PyFloat "3.2")]))
                   true) = true
    /\ _id (mkAction (PyStr "R001") "aqhi_realtime_observations.2024-03-15"
                   "update"
                   (PyDict (list_to_map [("id", PyStr "R001"); ("aqhi", PyFloat "3.2")]))
                   true) = v
    /\ doc (mkAction (PyStr "R001") "aqhi_realtime_observations.2024-03-15"
                   "update"
                   (PyDict (list_to_map [("id", PyStr "R001"); ("aqhi", PyFloat "3.2")]))
                   true) = PyDict body
    /\ body !! "id" = Some v.
Proof.
  apply (yielded_action_is_upsert (Samples.only Samples.observation)
           Samples.parsed_observation
           (append_item Samples.parsed_observation
              (PyDict (list_to_map [("id", PyStr "R001"); ("aqhi", PyFloat "3.2")])))
           Created (Suspended [])).
  vm_compute. reflexivity.
Defined.

(** C2, as the code has it: the document of a yielded action has no key ID;
    the identity is its _id and is also kept in the document, under the key
    id; the other keys of the feature are unchanged. *)
Theorem identity_moved_to_id (fs : string -> result pyvalue)
    (self self' : AqhiRealtimeLoader) (g g' : generator) (a : action) :
  next fs self g = (Yield a, g', self') ->
  exists feature rest d v body,
    pending fs self g = Ok (feature :: rest)
    /\ feature = PyDict d /\ d !! "ID" = Some v
    /\ _id a = v /\ doc a = PyDict body
    /\ body !! "ID" = None
    /\ body !! "id" = Some v
    /\ forall k, k <> "ID" -> k <> "id" -> body !! k = d !! k.
Proof.
  intros H. apply next_yield_inv in H as (feature & rest & Hp & Ht & _).
  apply transform_inv in Ht as (d & v & dt & -> & Hid & _ & -> & _).
  exists (PyDict d), rest, d, v, (delete "ID" (<["id" := v]> d)).
  repeat split; try assumption; simpl.
  - apply lookup_delete_eq.
  - rewrite lookup_delete_ne by discriminate. apply lookup_insert_eq.
  - intros k Hk1 Hk2.
    rewrite lookup_delete_ne by congruence. now rewrite lookup_insert_ne by congruence.
Qed.

Lemma identity_moved_to_id_witness :
  exists feature rest d v body,
    pending (Samples.only Samples.observation) Samples.parsed_observation Created
    = Ok (feature :: rest)
    /\ feature = PyDict d /\ d !! "ID" = Some v
    /\ PyStr "R001" = v
    /\ PyDict (list_to_map [("id", PyStr "R001"); ("aqhi", PyFloat "3.2")]) = PyDict body
    /\ body !! "ID" = None
    /\ body !! "id" = Some v
    /\ forall k, k <> "ID" -> k <> "id" -> body !! k = d !! k.
Proof.
  apply (identity_moved_to_id (Samples.only Samples.observation)
           Samples.parsed_observation
           (append_item Samples.parsed_observation
              (PyDict (list_to_map [("id", PyStr "R001"); ("aqhi", PyFloat "3.2")])))
           Created (Suspended [])
           (mkAction (PyStr "R001") "aqhi_realtime_observations.2024-03-15"
                   "update"
                   (PyDict (list_to_map [("id", PyStr "R001"); ("aqhi", PyFloat "3.2")]))
                   true)).
  vm_compute. reflexivity.
Defined.

(** C2 as stated fails: for the payload [{"ID": "R001", "aqhi": 3.2}] the
    document of the yielded action holds the identity R001, under the key
    id. *)
Lemma identity_kept_in_document :
  parse_filename (set_filepath Samples.fresh "AQ_OBS_ON_202403150600.json")
  = (Ok true, Samples.parsed_observation)
  /\ exists a g' self' body,
       next (Samples.only Samples.observation) Samples.parsed_observation Created
       = (Yield a, g', self')
       /\ _id a = PyStr "R001"
       /\ doc a = PyDict body
       /\ body !! "id" = Some (PyStr "R001").
Proof.
  split; [vm_compute; reflexivity|].
  eexists _, _, _, _. split; [vm_compute; reflexivity|].
  split; [reflexivity|]. split; [reflexivity|]. vm_compute. reflexivity.
Qed.

(** *** A feature without its identity *)




Lemma features_of_forecast (features : list pyvalue) (s : AqhiRealtimeLoader)
    (path : string) :
  filepath s = Some path -> type s = Some "forecasts" ->
  features_of (Samples.only (Samples.forecast_of features)) s = Ok features.
Proof.
  intros Hp Ht. unfold features_of, type_is, Samples.only, Samples.forecast_of.
  rewrite Hp, Ht. simpl. unfold getitem.
  change (list_to_map [("features", PyList features)] : gmap string pyvalue)
    with (<["features" := PyList features]> (∅ : gmap string pyvalue)).
  now rewrite lookup_insert_eq.
Qed.

Lemma good_has_identity : has_identity Samples.good.
Proof.
  exists (list_to_map [("ID", PyStr "A"); ("aqhi", PyInt 3)]), (PyStr "A").
  split; reflexivity.
Qed.


(** *** What [load_data] returns *)

(** C5, as the code has it: a load that succeeds returns True, the status
    its docstring announces; the count of the documents is not returned.
    The documents themselves are in the loader's items: the load has
    appended the document of every action it submitted. *)
Theorem load_data_returns_status (fs : string -> result pyvalue)
    (self self' : AqhiRealtimeLoader) (path : string) (v : pyvalue)
    (calls : list conn_call) :
  load_data fs self path = (Ok v, self', calls) ->
  v = PyBool true
  /\ items self' = (items self ++ (doc <$> submitted calls))%list.
Proof.
  rewrite load_data_emit.
  destruct (parse_filename (set_filepath self path)) as [[b|e] s1] eqn:Hparse;
    [|discriminate].
  destruct (features_of fs s1) as [features|e]; [|discriminate].
  destruct (emit s1 features) as [[acts s2] [e|]] eqn:He; [discriminate|].
  intros [= <- <- <-]. split; [reflexivity|].
  rewrite submitted_batches_flush. simpl.
  rewrite (emit_items _ _ _ _ _ He).
  now destruct (parse_filename_returns _ _ _ Hparse) as (_ & _ & -> & _).
Qed.

Lemma load_data_returns_status_witness :
  PyBool true = PyBool true
  /\ items (load_data (Samples.only Samples.forecast) Samples.fresh
              "AQ_FCST_ON_202403150600.json").1.2
     = (items Samples.fresh
        ++ (doc <$> submitted
              (load_data (Samples.only Samples.forecast) Samples.fresh
                 "AQ_FCST_ON_202403150600.json").2))%list.
Proof.
  apply (load_data_returns_status (Samples.only Samples.forecast) Samples.fresh
           _ "AQ_FCST_ON_202403150600.json").
  vm_compute. reflexivity.
Defined.

(** C5 as stated fails: the load of a forecast file with two features
    submits two documents and returns True, not the count 2. *)
Lemma load_data_returns_flag :
  (load_data (Samples.only Samples.forecast) Samples.fresh
     "AQ_FCST_ON_202403150600.json").1.1 = Ok (PyBool true)
  /\ List.length
       (submitted (load_data (Samples.only Samples.forecast) Samples.fresh
                     "AQ_FCST_ON_202403150600.json").2) = 2%nat
  /\ (load_data (Samples.only Samples.forecast) Samples.fresh
        "AQ_FCST_ON_202403150600.json").1.1 <> Ok (PyInt 2).
Proof.
  split; [vm_compute; reflexivity|]. split; [vm_compute; reflexivity|].
  vm_compute. discriminate.
Qed.

(** *** What the generator keeps *)

Section Pulling.

Variable fs : string -> result pyvalue.

Lemma pull_suspended (n : nat) :
  forall (features : list pyvalue) (self : AqhiRealtimeLoader) (dt : Datetime.datetime),
    (n <= List.length features)%nat ->
    Forall has_identity features -> date_ self = Some dt ->
    exists acts self',
      pull fs n self (Suspended features) = (acts, Suspended (drop n features), self')
      /\ List.length acts = n
      /\ items self' = (items self ++ (doc <$> acts))%list.
Proof.
  induction n as [|n IH]; intros features self dt Hn Hall Hdt.
  - exists [], self. simpl. now rewrite app_nil_r.
  - destruct features as [|feature rest]; simpl in Hn; [lia|].
    apply Forall_cons in Hall as [(d & v & -> & Hid) Hall].
    simpl. rewrite (transform_ok self d v dt Hid Hdt).
    destruct (IH rest (append_item self (PyDict (delete "ID" (<["id" := v]> d))))
                dt ltac:(lia) Hall Hdt) as (acts & self' & -> & Hlen & Hitems).
    eexists _, self'. split; [reflexivity|]. split; [simpl; now rewrite Hlen|].
    rewrite Hitems. simpl. now rewrite <- app_assoc.
Qed.

Lemma pull_created (n : nat) (features : list pyvalue) (self : AqhiRealtimeLoader) :
  features_of fs self = Ok features ->
  pull fs (S n) self Created = pull fs (S n) self (Suspended features).
Proof. intros Hf. simpl. now rewrite Hf. Qed.

End Pulling.

(** C9, as the code has it: the generator makes its actions one at a time,
    one feature for each [next], and leaves the features not yet asked for
    untouched; but the loader keeps the document of every action made, so
    what it retains grows by one document for each action consumed. *)
Theorem generator_lazy_items_grow (fs : string -> result pyvalue) (n : nat)
    (g : generator) (features : list pyvalue) (self : AqhiRealtimeLoader)
    (dt : Datetime.datetime) :
  pending fs self g = Ok features ->
  (S n <= List.length features)%nat ->
  Forall has_identity features -> date_ self = Some dt ->
  exists acts self',
    pull fs (S n) self g = (acts, Suspended (drop (S n) features), self')
    /\ List.length acts = S n
    /\ items self' = (items self ++ (doc <$> acts))%list.
Proof.
  intros Hp Hn Hall Hdt.
  assert (Hpull : pull fs (S n) self g = pull fs (S n) self (Suspended features)).
  { destruct g as [|features'|]; simpl in Hp.
    - now apply pull_created.
    - now injection Hp as ->.
    - injection Hp as <-. simpl in Hn. lia. }
  rewrite Hpull. now apply (pull_suspended fs (S n) features self dt).
Qed.

Lemma generator_lazy_items_grow_witness :
  exists acts self',
    pull (Samples.only Samples.forecast) 1 Samples.parsed Created
    = (acts, Suspended (drop 1 [PyDict (list_to_map [("ID", PyStr "A"); ("aqhi", PyInt 3)]);
                                PyDict (list_to_map [("ID", PyStr "B"); ("aqhi", PyInt 4)])]),
       self')
    /\ List.length acts = 1%nat
    /\ items self' = (items Samples.parsed ++ (doc <$> acts))%list.
Proof.
  apply (generator_lazy_items_grow (Samples.only Samples.forecast) 0 Created
           _ Samples.parsed (Datetime.mkDatetime 2024 3 15 6 0)).
  - vm_compute. reflexivity.
  - simpl. lia.
  - constructor; [|constructor; [|constructor]].
    + exists (list_to_map [("ID", PyStr "A"); ("aqhi", PyInt 3)]), (PyStr "A").
      split; reflexivity.
    + exists (list_to_map [("ID", PyStr "B"); ("aqhi", PyInt 4)]), (PyStr "B").
      split; reflexivity.
  - reflexivity.
Defined.

(** C9 as stated fails: no bound holds on what the loader retains while the
    generator is consumed; a file with more features leaves more items. *)
Lemma items_not_bounded :
  ~ exists bound : nat,
      forall (features : list pyvalue) (n : nat),
        (List.length
           (items (pull (Samples.only (Samples.forecast_of features)) n
                        Samples.parsed Created).2) <= bound)%nat.
Proof.
  intros [bound H].
  specialize (H (replicate (S bound) Samples.good) (S bound)).
  rewrite (pull_created _ bound (replicate (S bound) Samples.good)) in H
    by now apply (features_of_forecast _ _ "AQ_FCST_ON_202403150600.json").
  destruct (pull_suspended
              (Samples.only (Samples.forecast_of (replicate (S bound) Samples.good)))
              (S bound) (replicate (S bound) Samples.good) Samples.parsed
              (Datetime.mkDatetime 2024 3 15 6 0))
    as (acts & self' & Hpull & Hlen & Hitems).
  - rewrite length_replicate. lia.
  - apply Forall_replicate, good_has_identity.
  - reflexivity.
  - rewrite Hpull in H. simpl in H. rewrite Hitems in H.
    rewrite length_app, length_fmap, Hlen in H. lia.
Qed.

(** *** The shared [SETTINGS] *)






(** *** Cleaning old indexes *)

(** Whenever names exist and the selection is not empty, [delete] receives
    every name that [get] answered. *)
Lemma clean_indexes_deletes_fetched (conn_get : string -> list string)
    (check : list string -> Z -> list string) (days : Z) (dataset : string) :
  let pattern :=
    if String.eqb dataset "all" then "aqhi_realtime_*.*"
    else format "{}*" [format INDEX_BASENAME [dataset]] in
  conn_get pattern <> [] ->
  check (conn_get pattern) days <> [] ->
  In (Call (delete_ (join "," (conn_get pattern))))
     (clean_indexes conn_get check days dataset).
Proof.
  intros pattern Hget Hsel. unfold clean_indexes.
  change (format "{}*" [format INDEX_BASENAME ["*"]]) with "aqhi_realtime_*.*".
  fold pattern.
  destruct (conn_get pattern) as [|i indexes]; [congruence|].
  destruct (check (i :: indexes) days) as [|j selected]; [congruence|].
  simpl. auto.
Qed.

(** C1: on the spec's retention scenario (366 days, current date
    2025-01-01, indexes of 2023-12-01 and 2024-06-01) the selection holds
    the first index only and the command prints that it deletes that one,
    yet it calls [delete] with both names: the index of 2024-06-01, which
    the selection leaves out, is deleted too. *)
Theorem clean_indexes_deletes_unselected :
  retention_select Samples.today (Samples.existing "aqhi_realtime_forecasts.*")
                   DAYS_TO_KEEP
  = ["aqhi_realtime_forecasts.2023-12-01"]
  /\ clean_indexes Samples.existing (retention_select Samples.today)
                   DAYS_TO_KEEP "forecasts"
     = [Call (get "aqhi_realtime_forecasts.*");
        Echo "Deleting indexes ['aqhi_realtime_forecasts.2023-12-01']";
        Call (delete_ "aqhi_realtime_forecasts.2023-12-01,aqhi_realtime_forecasts.2024-06-01");
        Echo "Done"]
  /\ deleted_names
       (clean_indexes Samples.existing (retention_select Samples.today)
                      DAYS_TO_KEEP "forecasts")
     = ["aqhi_realtime_forecasts.2023-12-01"; "aqhi_realtime_forecasts.2024-06-01"].
Proof. repeat split; vm_compute; reflexivity. Qed.

(** * Further properties *)

(** ** Digits and dates *)

Lemma digit_digit_char (k : Z) :
  Datetime.digit (Datetime.digit_char k) = Some (k mod 10).
Proof.
  unfold Datetime.digit, Datetime.digit_char.
  pose proof (Z.mod_pos_bound k 10 ltac:(lia)) as Hm.
  rewrite nat_ascii_embedding by lia.
  rewrite Z2Nat.id by lia.
  replace (48 <=? 48 + k mod 10) with true by (symmetry; apply Z.leb_le; lia).
  replace (48 + k mod 10 <=? 57) with true by (symmetry; apply Z.leb_le; lia).
  simpl. f_equal. lia.
Qed.

Lemma digit_in_digit_char (lo hi k : Z) :
  Datetime.digit_in lo hi (Datetime.digit_char k)
  = if (lo <=? k mod 10) && (k mod 10 <=? hi) then Some (k mod 10) else None.
Proof. unfold Datetime.digit_in. now rewrite digit_digit_char. Qed.

(** What an alternative of two digits finds at the head of a text that
    starts with a number written with two digits. *)
Lemma two_pad2_ranges (lo1 hi1 lo2 hi2 n : Z) (rest : string) :
  Datetime.two lo1 hi1 lo2 hi2 (Datetime.pad2 n ++ rest)
  = if (lo1 <=? (n / 10) mod 10) && ((n / 10) mod 10 <=? hi1)
       && ((lo2 <=? n mod 10) && (n mod 10 <=? hi2))
    then Some (10 * ((n / 10) mod 10) + n mod 10, rest) else None.
Proof.
  change (Datetime.pad2 n ++ rest)%string
    with (String (Datetime.digit_char (n / 10)) (String (Datetime.digit_char n) rest)).
  unfold Datetime.two. rewrite !digit_in_digit_char.
  destruct ((lo1 <=? (n / 10) mod 10) && ((n / 10) mod 10 <=? hi1));
    destruct ((lo2 <=? n mod 10) && (n mod 10 <=? hi2)); reflexivity.
Qed.

(** A number below 100 written with two digits is read back. *)
Lemma two_pad2 (n : Z) (rest : string) :
  0 <= n <= 99 ->
  Datetime.two 0 9 0 9 (Datetime.pad2 n ++ rest) = Some (n, rest).
Proof.
  intros Hn. rewrite two_pad2_ranges.
  pose proof (Z.mod_pos_bound n 10 ltac:(lia)).
  pose proof (Z.mod_pos_bound (n / 10) 10 ltac:(lia)).
  replace (0 <=? (n / 10) mod 10) with true by (symmetry; apply Z.leb_le; lia).
  replace ((n / 10) mod 10 <=? 9) with true by (symmetry; apply Z.leb_le; lia).
  replace (0 <=? n mod 10) with true by (symmetry; apply Z.leb_le; lia).
  replace (n mod 10 <=? 9) with true by (symmetry; apply Z.leb_le; lia).
  simpl. do 2 f_equal. Z.to_euclidean_division_equations; lia.
Qed.

(** The two digits of a number below 100, as names. *)
Ltac name_digits n :=
  let d1 := fresh "d1" in
  let d2 := fresh "d2" in
  let H := fresh "Hdigits" in
  assert (H : n = 10 * ((n / 10) mod 10) + n mod 10
              /\ 0 <= (n / 10) mod 10 <= 9 /\ 0 <= n mod 10 <= 9)
    by (Z.to_euclidean_division_equations; lia);
  set (d1 := (n / 10) mod 10) in *; set (d2 := n mod 10) in *;
  clearbody d1 d2.

Ltac decide_ranges :=
  repeat (match goal with
          | |- context [?a <=? ?b] => destruct (Z.leb_spec a b)
          end; try (exfalso; lia));
  cbn [andb].

Lemma two_pad2_value (n : Z) :
  0 <= n <= 99 -> 10 * ((n / 10) mod 10) + n mod 10 = n.
Proof. intros Hn. Z.to_euclidean_division_equations; lia. Qed.

Lemma four_pad4 (y : Z) (rest : string) :
  0 <= y <= 9999 ->
  Datetime.four (Datetime.pad4 y ++ rest) = Some (y, rest).
Proof.
  intros Hy. unfold Datetime.four, Datetime.pad4.
  rewrite append_assoc, two_pad2 by (Z.to_euclidean_division_equations; lia).
  rewrite two_pad2_ranges.
  assert (Hlow : 10 * ((y / 10) mod 10) + y mod 10 = y mod 100
                 /\ 0 <= (y / 10) mod 10 <= 9 /\ 0 <= y mod 10 <= 9)
    by (Z.to_euclidean_division_equations; lia).
  destruct Hlow as (-> & ? & ?). decide_ranges.
  do 2 f_equal. Z.to_euclidean_division_equations; lia.
Qed.

Section Directives.

Variables (ds : list (list Datetime.alt)) (rest rest' : string) (vs : list Z).
Hypothesis Hrest : Datetime.regex_match ds rest = Some (vs, rest').

Lemma match_Y (y : Z) :
  0 <= y <= 9999 ->
  Datetime.regex_match (Datetime.directive_Y :: ds) (Datetime.pad4 y ++ rest)
  = Some (y :: vs, rest').
Proof.
  intros Hy. unfold Datetime.directive_Y. cbn [Datetime.regex_match].
  now rewrite four_pad4, Hrest.
Qed.

Lemma match_m (m : Z) :
  1 <= m <= 12 ->
  Datetime.regex_match (Datetime.directive_m :: ds) (Datetime.pad2 m ++ rest)
  = Some (m :: vs, rest').
Proof.
  intros Hm. unfold Datetime.directive_m. cbn [Datetime.regex_match].
  rewrite !two_pad2_ranges.
  name_digits m. decide_ranges.
  all: rewrite Hrest; replace (10 * d1 + d2) with m by lia; reflexivity.
Qed.

Lemma match_d (d : Z) :
  1 <= d <= 31 ->
  Datetime.regex_match (Datetime.directive_d :: ds) (Datetime.pad2 d ++ rest)
  = Some (d :: vs, rest').
Proof.
  intros Hd. unfold Datetime.directive_d. cbn [Datetime.regex_match].
  rewrite !two_pad2_ranges.
  name_digits d. decide_ranges.
  all: rewrite Hrest; replace (10 * d1 + d2) with d by lia; reflexivity.
Qed.

Lemma match_H (h : Z) :
  0 <= h <= 23 ->
  Datetime.regex_match (Datetime.directive_H :: ds) (Datetime.pad2 h ++ rest)
  = Some (h :: vs, rest').
Proof.
  intros Hh. unfold Datetime.directive_H. cbn [Datetime.regex_match].
  rewrite !two_pad2_ranges.
  name_digits h. decide_ranges.
  all: rewrite Hrest; replace (10 * d1 + d2) with h by lia; reflexivity.
Qed.

Lemma match_M (mi : Z) :
  0 <= mi <= 59 ->
  Datetime.regex_match (Datetime.directive_M :: ds) (Datetime.pad2 mi ++ rest)
  = Some (mi :: vs, rest').
Proof.
  intros Hmi. unfold Datetime.directive_M. cbn [Datetime.regex_match].
  rewrite !two_pad2_ranges.
  name_digits mi. decide_ranges.
  all: rewrite Hrest; replace (10 * d1 + d2) with mi by lia; reflexivity.
Qed.

End Directives.

Lemma days_in_month_bounds (y m : Z) : 28 <= Datetime.days_in_month y m <= 31.
Proof.
  unfold Datetime.days_in_month.
  repeat match goal with |- context [if ?b then _ else _] => destruct b end; lia.
Qed.

Lemma valid_date_bounds (y m d : Z) :
  Datetime.valid_date y m d = true ->
  1 <= y <= 9999 /\ 1 <= m <= 12 /\ 1 <= d <= 31.
Proof.
  unfold Datetime.valid_date. pose proof (days_in_month_bounds y m).
  rewrite !andb_true_iff, !Z.leb_le. lia.
Qed.

(** [strptime] reads back the twelve digits of a date and time of day that
    exist. *)
Lemma strptime_timestamp (y m d h mi : Z) :
  Datetime.valid_date y m d = true -> 0 <= h <= 23 -> 0 <= mi <= 59 ->
  Datetime.strptime_YmdHM (timestamp y m d h mi)
  = Ok (Datetime.mkDatetime y m d h mi).
Proof.
  intros Hv Hh Hmi. destruct (valid_date_bounds _ _ _ Hv) as (Hy & Hm & Hd).
  unfold Datetime.strptime_YmdHM, timestamp.
  rewrite <- (append_nil_r (Datetime.pad2 mi)).
  rewrite (match_Y _ _ "" [m; d; h; mi]); [now rewrite Hv| |lia].
  apply match_m; [|lia]. apply match_d; [|lia]. apply match_H; [|lia].
  apply match_M; [|lia]. reflexivity.
Qed.

(** What [strptime] accepts is a date and time of day that exist. *)

Lemma digit_in_range (lo hi : Z) (c : ascii) (v : Z) :
  Datetime.digit_in lo hi c = Some v -> lo <= v <= hi.
Proof.
  unfold Datetime.digit_in. destruct (Datetime.digit c) as [d|]; [|discriminate].
  destruct (Z.leb_spec lo d), (Z.leb_spec d hi); simpl; intros [= <-]; lia.
Qed.

Lemma one_range (lo hi : Z) (s rest : string) (v : Z) :
  Datetime.one lo hi s = Some (v, rest) -> lo <= v <= hi.
Proof.
  destruct s as [|c s]; [discriminate|]. simpl.
  destruct (Datetime.digit_in lo hi c) as [d|] eqn:Hd; [|discriminate].
  intros [= <- _]. now apply digit_in_range in Hd.
Qed.

Lemma two_range (lo1 hi1 lo2 hi2 : Z) (s rest : string) (v : Z) :
  Datetime.two lo1 hi1 lo2 hi2 s = Some (v, rest) ->
  10 * lo1 + lo2 <= v <= 10 * hi1 + hi2.
Proof.
  destruct s as [|c1 [|c2 s]]; try discriminate. simpl.
  destruct (Datetime.digit_in lo1 hi1 c1) as [d1|] eqn:H1; [|discriminate].
  destruct (Datetime.digit_in lo2 hi2 c2) as [d2|] eqn:H2; [|discriminate].
  intros [= <- _]. apply digit_in_range in H1, H2. lia.
Qed.

Lemma blank_one_range (lo hi : Z) (s rest : string) (v : Z) :
  Datetime.blank_one lo hi s = Some (v, rest) -> lo <= v <= hi.
Proof.
  destruct s as [|c s]; [discriminate|]. simpl.
  destruct (Ascii.eqb c " "); [|discriminate]. apply one_range.
Qed.

(** A match of a sequence of directives starts with one alternative of the
    first directive and goes on with the others. *)
Lemma regex_match_cons_inv (d : list Datetime.alt) (ds : list (list Datetime.alt))
    (s rest : string) (vs : list Z) :
  Datetime.regex_match (d :: ds) s = Some (vs, rest) ->
  exists a v s' vs',
    In a d /\ a s = Some (v, s')
    /\ Datetime.regex_match ds s' = Some (vs', rest) /\ vs = v :: vs'.
Proof.
  cbn [Datetime.regex_match].
  induction d as [|a alts IH]; [discriminate|].
  destruct (a s) as [[v s']|] eqn:Ha.
  - destruct (Datetime.regex_match ds s') as [[vs' r]|] eqn:Hds.
    + intros [= <- <-]. exists a, v, s', vs'. repeat split; auto. now left.
    + intros H. destruct (IH H) as (a' & v' & s'' & vs'' & Hin & ?).
      exists a', v', s'', vs''. split; [now right|assumption].
  - intros H. destruct (IH H) as (a' & v' & s'' & vs'' & Hin & ?).
    exists a', v', s'', vs''. split; [now right|assumption].
Qed.

Lemma strptime_valid (text : string) (dt : Datetime.datetime) :
  Datetime.strptime_YmdHM text = Ok dt -> valid_datetime dt.
Proof.
  unfold Datetime.strptime_YmdHM.
  destruct (Datetime.regex_match _ text) as [[vs rest]|] eqn:Hm; [|discriminate].
  destruct vs as [|y [|m [|d [|h [|mi [|? ?]]]]]]; try discriminate.
  destruct rest; [|discriminate].
  destruct (Datetime.valid_date y m d) eqn:Hv; [|discriminate].
  intros [= <-]. unfold valid_datetime. simpl. split; [exact Hv|].
  apply regex_match_cons_inv in Hm as (_ & _ & s1 & vs1 & _ & _ & Hm & [= _ <-]).
  apply regex_match_cons_inv in Hm as (_ & _ & s2 & vs2 & _ & _ & Hm & [= _ <-]).
  apply regex_match_cons_inv in Hm as (_ & _ & s3 & vs3 & _ & _ & Hm & [= _ <-]).
  apply regex_match_cons_inv in Hm as (aH & vH & s4 & vs4 & HinH & HaH & Hm & [= <- <-]).
  apply regex_match_cons_inv in Hm as (aM & vM & s5 & vs5 & HinM & HaM & Hm & [= <- _]).
  split.
  - destruct HinH as [<-|[<-|[<-|[]]]];
      [apply two_range in HaH|apply two_range in HaH|apply one_range in HaH]; lia.
  - destruct HinM as [<-|[<-|[]]];
      [apply two_range in HaM|apply one_range in HaM]; lia.
Qed.

(** ** File names that match *)

Lemma lower_separator (c sep : ascii) :
  sep = "_"%char \/ sep = "."%char ->
  Parse.lower c = Parse.lower sep -> c = sep.
Proof.
  intros Hsep.
  assert (Hs : Parse.lower sep = sep) by (destruct Hsep as [-> | ->]; reflexivity).
  rewrite Hs. unfold Parse.lower.
  destruct ((65 <=? nat_of_ascii c)%nat && (nat_of_ascii c <=? 90)%nat) eqn:Hup;
    [|easy].
  apply andb_true_iff in Hup as [H1%Nat.leb_le H2%Nat.leb_le].
  intros H. apply (f_equal nat_of_ascii) in H.
  rewrite nat_ascii_embedding in H by lia.
  destruct Hsep as [-> | ->];
    [change (nat_of_ascii "_") with 95%nat in H
    |change (nat_of_ascii ".") with 46%nat in H]; lia.
Qed.

Lemma strip_literal_app (l s : string) :
  Parse.strip_literal l (l ++ s) = Some s.
Proof.
  induction l as [|a l IH]; [reflexivity|].
  change (String a l ++ s)%string with (String a (l ++ s)). simpl.
  now rewrite Ascii.eqb_refl.
Qed.

Lemma has_char_app (c : ascii) (a b : string) :
  has_char c (a ++ b) = has_char c a || has_char c b.
Proof.
  induction a as [|x a IH]; [reflexivity|].
  change (String x a ++ b)%string with (String x (a ++ b)). simpl.
  now rewrite IH, orb_assoc.
Qed.

(** A field followed by a separator takes a token in which the separator
    does not occur. *)
Lemma shortest_token (k : string -> option (gmap string string)) (n : string)
    (sep : ascii) (rest : string) (named : gmap string string)
    (Hsep : sep = "_"%char \/ sep = "."%char)
    (Hother : forall c s, c <> sep -> k (String c s) = None)
    (Hrest : k (String sep rest) = Some named) (tok : string) :
  forall taken,
    tok <> "" -> has_char sep tok = false ->
    Parse.shortest k n taken (tok ++ String sep rest)
    = Some (<[n := (taken ++ tok)%string]> named).
Proof.
  induction tok as [|c tok IH]; intros taken Hne Hno; [congruence|].
  change (String c tok ++ String sep rest)%string
    with (String c (tok ++ String sep rest)).
  simpl in Hno. apply orb_false_iff in Hno as [Hc Hno].
  cbn [Parse.shortest].
  destruct tok as [|c' tok'].
  - change ("" ++ String sep rest)%string with (String sep rest).
    now rewrite Hrest.
  - change (String c' tok' ++ String sep rest)%string
      with (String c' (tok' ++ String sep rest)).
    rewrite Hother.
    + change (String c' (tok' ++ String sep rest))
        with (String c' tok' ++ String sep rest)%string.
      rewrite IH by (congruence || assumption).
      now rewrite append_assoc.
    + simpl in Hno. apply orb_false_iff in Hno as [Hc' _].
      now apply Ascii.eqb_neq in Hc'.
Qed.

Lemma match_literal_other (sep : ascii) (l : string) (p : list Parse.elem)
    (c : ascii) (s : string) :
  sep = "_"%char \/ sep = "."%char -> c <> sep ->
  Parse.match_elems (Parse.Lit (String sep l) :: p) (String c s) = None.
Proof.
  intros Hsep Hc. simpl.
  destruct (Ascii.eqb_spec (Parse.lower sep) (Parse.lower c)) as [Heq|]; [|reflexivity].
  symmetry in Heq. now apply lower_separator in Heq.
Qed.

Lemma match_literal_app (l : string) (p : list Parse.elem) (s : string) :
  Parse.match_elems (Parse.Lit l :: p) (l ++ s) = Parse.match_elems p s.
Proof. cbn [Parse.match_elems]. now rewrite strip_literal_app. Qed.

Lemma match_field_token (n : string) (sep : ascii) (l : string)
    (p : list Parse.elem) (tok rest : string) (named : gmap string string) :
  sep = "_"%char \/ sep = "."%char ->
  tok <> "" -> has_char sep tok = false ->
  Parse.match_elems p rest = Some named ->
  Parse.match_elems (Parse.Field n :: Parse.Lit (String sep l) :: p)
                    (tok ++ String sep (l ++ rest))
  = Some (<[n := tok]> named).
Proof.
  intros Hsep Hne Hno Hrest.
  change (Parse.match_elems (Parse.Field n :: Parse.Lit (String sep l) :: p)
            (tok ++ String sep (l ++ rest)))
    with (Parse.shortest (Parse.match_elems (Parse.Lit (String sep l) :: p)) n ""
            (tok ++ String sep (l ++ rest))).
  apply (shortest_token _ n sep (l ++ rest) named Hsep); try assumption.
  - intros c s Hc. now apply match_literal_other.
  - change (String sep (l ++ rest)) with (String sep l ++ rest)%string.
    now rewrite match_literal_app.
Qed.

(** The pattern of the loader gives back the parts a name is built from. *)
Lemma parse_aqhi_filename (token region_ stamp : string) :
  token <> "" -> has_char "_" token = false ->
  region_ <> "" -> has_char "_" region_ = false ->
  stamp <> "" -> has_char "." stamp = false ->
  Parse.parse "AQ_{type}_{region}_{date_}.json" (aqhi_filename token region_ stamp)
  = Some (<["type" := token]> (<["region" := region_]> (<["date_" := stamp]> ∅))).
Proof.
  intros Ht1 Ht2 Hr1 Hr2 Hs1 Hs2. unfold Parse.parse, aqhi_filename.
  change (Parse.compile "AQ_{type}_{region}_{date_}.json")
    with [Parse.Lit "AQ_"; Parse.Field "type"; Parse.Lit "_";
          Parse.Field "region"; Parse.Lit "_"; Parse.Field "date_";
          Parse.Lit ".json"].
  rewrite match_literal_app.
  apply (match_field_token "type" "_" "" _ token _ _ (or_introl eq_refl) Ht1 Ht2).
  apply (match_field_token "region" "_" "" _ region_ _ _ (or_introl eq_refl) Hr1 Hr2).
  apply (match_field_token "date_" "." "json" [] stamp "" _ (or_intror eq_refl) Hs1 Hs2).
  reflexivity.
Qed.

Lemma digit_char_not (c : ascii) (k : Z) :
  Datetime.digit c = None -> Ascii.eqb (Datetime.digit_char k) c = false.
Proof.
  intros Hc. apply Ascii.eqb_neq. intros <-.
  now rewrite digit_digit_char in Hc.
Qed.

Lemma pad2_has_char (c : ascii) (n : Z) :
  Datetime.digit c = None -> has_char c (Datetime.pad2 n) = false.
Proof.
  intros Hc. unfold Datetime.pad2. simpl. now rewrite !digit_char_not.
Qed.

Lemma timestamp_has_char (c : ascii) (y m d h mi : Z) :
  Datetime.digit c = None -> has_char c (timestamp y m d h mi) = false.
Proof.
  intros Hc. unfold timestamp, Datetime.pad4.
  now rewrite !has_char_app, !pad2_has_char.
Qed.

Lemma timestamp_not_empty (y m d h mi : Z) : timestamp y m d h mi <> "".
Proof. unfold timestamp, Datetime.pad4, Datetime.pad2. discriminate. Qed.

Lemma shortest_nonempty (k : string -> option (gmap string string)) (n : string)
    (s : string) :
  forall taken m,
    Parse.shortest k n taken s = Some m ->
    exists tok named rest,
      tok <> "" /\ m = <[n := (taken ++ tok)%string]> named /\ k rest = Some named.
Proof.
  induction s as [|c s IH]; intros taken m; [discriminate|]. simpl.
  destruct (k s) as [named|] eqn:Hk.
  - intros [= <-]. exists (String c ""), named, s. repeat split; [discriminate|assumption].
  - intros H. destruct (IH _ _ H) as (tok & named & rest & _ & -> & Hrest).
    exists (String c tok), named, rest. split; [discriminate|].
    split; [|assumption]. now rewrite append_assoc.
Qed.

Lemma match_field_nonempty (n : string) (p : list Parse.elem) (s : string)
    (m : gmap string string) :
  Parse.match_elems (Parse.Field n :: p) s = Some m ->
  exists tok named rest,
    tok <> "" /\ m = <[n := tok]> named /\ Parse.match_elems p rest = Some named.
Proof.
  intros H.
  now apply (shortest_nonempty (Parse.match_elems p) n s "" m) in H.
Qed.

(** The three fields of a name that matches are never empty. *)
Lemma parse_named_nonempty (s : string) (named : gmap string string) :
  Parse.parse "AQ_{type}_{region}_{date_}.json" s = Some named ->
  exists t r d,
    named !! "type" = Some t /\ named !! "region" = Some r
    /\ named !! "date_" = Some d /\ t <> "" /\ r <> "" /\ d <> "".
Proof.
  unfold Parse.parse.
  change (Parse.compile "AQ_{type}_{region}_{date_}.json")
    with [Parse.Lit "AQ_"; Parse.Field "type"; Parse.Lit "_";
          Parse.Field "region"; Parse.Lit "_"; Parse.Field "date_";
          Parse.Lit ".json"].
  intros H.
  apply match_lit_inv in H as (s1 & H).
  apply match_field_nonempty in H as (t & m1 & s2 & Ht & -> & H).
  apply match_lit_inv in H as (s3 & H).
  apply match_field_nonempty in H as (r & m2 & s4 & Hr & -> & H).
  apply match_lit_inv in H as (s5 & H).
  apply match_field_nonempty in H as (d & m3 & s6 & Hd & -> & H).
  exists t, r, d. repeat split; try assumption.
  - apply lookup_insert_eq.
  - rewrite lookup_insert_ne by discriminate. apply lookup_insert_eq.
  - rewrite !lookup_insert_ne by discriminate. apply lookup_insert_eq.
Qed.

(** ** [parse_filename] *)

(** X1: a path whose final component is AQ_<token>_<region>_<twelve
    digits>.json, with the token FCST or OBS, a region without underscore
    and digits that denote a date and time of day that exist, is parsed to
    exactly these: the type that goes with the token, the region and the
    date; the items are untouched. *)
Theorem parse_filename_well_formed (self : AqhiRealtimeLoader)
    (path token kind region_ : string) (y m d h mi : Z) :
  Pathlib.name path = aqhi_filename token region_ (timestamp y m d h mi) ->
  (token = "FCST" /\ kind = "forecasts") \/ (token = "OBS" /\ kind = "observations") ->
  region_ <> "" -> has_char "_" region_ = false ->
  Datetime.valid_date y m d = true -> 0 <= h <= 23 -> 0 <= mi <= 59 ->
  parse_filename (set_filepath self path)
  = (Ok true,
     mkLoader (Some path) (Some kind) (Some region_)
              (Some (Datetime.mkDatetime y m d h mi)) (items self)).
Proof.
  intros Hname Htoken Hr1 Hr2 Hv Hh Hmi.
  unfold parse_filename.
  change (filepath (set_filepath self path)) with (Some path). cbv iota beta.
  rewrite Hname, parse_aqhi_filename;
    [|destruct Htoken as [[-> _]|[-> _]]; discriminate
     |destruct Htoken as [[-> _]|[-> _]]; reflexivity
     |assumption|assumption
     |apply timestamp_not_empty
     |now apply timestamp_has_char].
  rewrite lookup_insert_eq.
  rewrite lookup_insert_ne by discriminate. rewrite lookup_insert_eq.
  rewrite !lookup_insert_ne by discriminate. rewrite lookup_insert_eq.
  rewrite strptime_timestamp by assumption.
  destruct Htoken as [[-> ->]|[-> ->]]; reflexivity.
Qed.

Lemma parse_filename_well_formed_witness :
  parse_filename (set_filepath Samples.fresh "/data/aqhi/AQ_OBS_BC_202502282359.json")
  = (Ok true,
     mkLoader (Some "/data/aqhi/AQ_OBS_BC_202502282359.json") (Some "observations")
              (Some "BC") (Some (Datetime.mkDatetime 2025 2 28 23 59))
              (items Samples.fresh)).
Proof.
  apply (parse_filename_well_formed Samples.fresh
           "/data/aqhi/AQ_OBS_BC_202502282359.json" "OBS" "observations" "BC"
           2025 2 28 23 59).
  - vm_compute. reflexivity.
  - right. split; reflexivity.
  - discriminate.
  - reflexivity.
  - reflexivity.
  - lia.
  - lia.
Defined.

(** X2: when [parse_filename] returns, it returns True and the loader holds
    a region that is not empty and a date and time of day that exist; its
    type is one of the two dataset types or the type it had before; its
    path and its items are untouched. *)
Theorem parse_filename_returns_valid (self s1 : AqhiRealtimeLoader) (b : bool) :
  parse_filename self = (Ok b, s1) ->
  b = true
  /\ filepath s1 = filepath self /\ items s1 = items self
  /\ (exists r, region s1 = Some r /\ r <> "")
  /\ (exists dt, date_ s1 = Some dt /\ valid_datetime dt)
  /\ (type s1 = Some "forecasts" \/ type s1 = Some "observations"
      \/ type s1 = type self).
Proof.
  unfold parse_filename.
  destruct (filepath self) as [path|] eqn:Hp; [|discriminate].
  destruct (Parse.parse _ _) as [named|] eqn:Hparse; [|discriminate].
  destruct (parse_named_nonempty _ _ Hparse)
    as (t & r & text & -> & -> & -> & _ & Hr & _).
  destruct (Datetime.strptime_YmdHM text) as [dt|] eqn:Hdt; [|discriminate].
  intros [= <- <-]. apply strptime_valid in Hdt.
  destruct (String.eqb t "FCST"), (String.eqb t "OBS"); simpl;
    repeat split; eauto.
Qed.

Lemma parse_filename_returns_valid_witness :
  true = true
  /\ filepath Samples.parsed
     = filepath (set_filepath Samples.fresh "AQ_FCST_ON_202403150600.json")
  /\ items Samples.parsed
     = items (set_filepath Samples.fresh "AQ_FCST_ON_202403150600.json")
  /\ (exists r, region Samples.parsed = Some r /\ r <> "")
  /\ (exists dt, date_ Samples.parsed = Some dt /\ valid_datetime dt)
  /\ (type Samples.parsed = Some "forecasts"
      \/ type Samples.parsed = Some "observations"
      \/ type Samples.parsed
         = type (set_filepath Samples.fresh "AQ_FCST_ON_202403150600.json")).
Proof.
  apply (parse_filename_returns_valid
           (set_filepath Samples.fresh "AQ_FCST_ON_202403150600.json")).
  vm_compute. reflexivity.
Defined.

(** X3: [parse_filename] raises only AttributeError, for a name that does
    not match the pattern, and then the loader is as it was, or ValueError,
    for a date it cannot read, and then the type and the region of the name
    are already set while the date, the path and the items are as they
    were.  It never raises KeyError. *)
Theorem parse_filename_raises (self s1 : AqhiRealtimeLoader) (e : pyerr) :
  parse_filename self = (Raise e, s1) ->
  (e = AttributeError /\ s1 = self)
  \/ (e = ValueError
      /\ filepath s1 = filepath self /\ date_ s1 = date_ self
      /\ items s1 = items self
      /\ exists named t r,
           Parse.parse "AQ_{type}_{region}_{date_}.json"
                       (Pathlib.name (default "" (filepath self))) = Some named
           /\ named !! "type" = Some t /\ named !! "region" = Some r
           /\ region s1 = Some r
           /\ type s1 = (if String.eqb t "OBS" then Some "observations"
                         else if String.eqb t "FCST" then Some "forecasts"
                         else type self)).
Proof.
  unfold parse_filename.
  destruct (filepath self) as [path|] eqn:Hp; [|intros [= <- <-]; now left].
  destruct (Parse.parse _ _) as [named|] eqn:Hparse; [|intros [= <- <-]; now left].
  destruct (parse_named _ _ Hparse) as (t & r & text & Ht & Hr & Hd).
  rewrite Ht, Hr, Hd.
  destruct (Datetime.strptime_YmdHM text) as [dt|err] eqn:Hdt; [discriminate|].
  intros [= <- <-]. right.
  assert (err = ValueError) as ->.
  { revert Hdt. unfold Datetime.strptime_YmdHM.
    repeat match goal with
           | |- context [match ?x with _ => _ end] => destruct x
           end; congruence. }
  split; [reflexivity|].
  destruct (String.eqb t "FCST") eqn:Hf, (String.eqb t "OBS") eqn:Ho; simpl;
    (split; [assumption || reflexivity|]); (split; [reflexivity|]);
    (split; [reflexivity|]); exists named, t, r; rewrite ?Ho, ?Hf;
    repeat split; assumption.
Qed.

Lemma parse_filename_raises_witness :
  (ValueError = AttributeError
   /\ set_region (set_type (set_filepath Samples.fresh "AQ_FCST_ON_202402300600.json")
                           "forecasts") "ON"
      = set_filepath Samples.fresh "AQ_FCST_ON_202402300600.json")
  \/ (ValueError = ValueError
      /\ filepath (set_region (set_type
            (set_filepath Samples.fresh "AQ_FCST_ON_202402300600.json")
            "forecasts") "ON")
         = filepath (set_filepath Samples.fresh "AQ_FCST_ON_202402300600.json")
      /\ date_ (set_region (set_type
            (set_filepath Samples.fresh "AQ_FCST_ON_202402300600.json")
            "forecasts") "ON")
         = date_ (set_filepath Samples.fresh "AQ_FCST_ON_202402300600.json")
      /\ items (set_region (set_type
            (set_filepath Samples.fresh "AQ_FCST_ON_202402300600.json")
            "forecasts") "ON")
         = items (set_filepath Samples.fresh "AQ_FCST_ON_202402300600.json")
      /\ exists named t r,
           Parse.parse "AQ_{type}_{region}_{date_}.json"
             (Pathlib.name
                (default "" (filepath
                   (set_filepath Samples.fresh "AQ_FCST_ON_202402300600.json"))))
           = Some named
           /\ named !! "type" = Some t /\ named !! "region" = Some r
           /\ region (set_region (set_type
                (set_filepath Samples.fresh "AQ_FCST_ON_202402300600.json")
                "forecasts") "ON") = Some r
           /\ type (set_region (set_type
                (set_filepath Samples.fresh "AQ_FCST_ON_202402300600.json")
                "forecasts") "ON")
              = (if String.eqb t "OBS" then Some "observations"
                 else if String.eqb t "FCST" then Some "forecasts"
                 else type (set_filepath Samples.fresh
                              "AQ_FCST_ON_202402300600.json"))).
Proof.
  apply (parse_filename_raises
           (set_filepath Samples.fresh "AQ_FCST_ON_202402300600.json")).
  vm_compute. reflexivity.
Defined.

(** ** Index names *)






(** ** The generator, step by step *)

Section Steps.

Variable fs : string -> result pyvalue.

Lemma pull_closed (n : nat) (self : AqhiRealtimeLoader) :
  pull fs n self Closed = ([], Closed, self).
Proof. destruct n; reflexivity. Qed.


End Steps.



(** X6: a [next] changes the loader only when it yields, and then by
    appending the document of the action it yields to the items; a [next]
    that stops or raises leaves the loader as it was and the generator
    finished, and no later call yields anything. *)
Theorem next_appends_only_what_it_yields (fs : string -> result pyvalue)
    (self : AqhiRealtimeLoader) (g : generator) :
  match next fs self g with
  | (Yield a, g', self') =>
      self' = append_item self (doc a) /\ exists rest, g' = Suspended rest
  | (_, g', self') =>
      self' = self /\ g' = Closed
      /\ forall n s, pull fs n s g' = ([], Closed, s)
  end.
Proof.
  assert (Hresume : forall features,
    match resume self features with
    | (Yield a, g', self') =>
        self' = append_item self (doc a) /\ exists rest, g' = Suspended rest
    | (_, g', self') =>
        self' = self /\ g' = Closed /\ forall n s, pull fs n s g' = ([], Closed, s)
    end).
  { intros [|feature rest]; simpl.
    - repeat split. intros n s. apply pull_closed.
    - destruct (transform self feature) as [[a s']|e] eqn:Ht.
      + apply transform_inv in Ht as (d & v & dt & _ & _ & _ & -> & ->).
        split; [reflexivity|eauto].
      + repeat split. intros n s. apply pull_closed. }
  destruct g as [|features|]; simpl.
  - destruct (features_of fs self) as [features|e]; [apply Hresume|].
    repeat split. intros n s. apply pull_closed.
  - apply Hresume.
  - repeat split. intros n s. apply pull_closed.
Qed.



(** ** Templates and names *)

(** X8: whatever SETTINGS holds, [__init__] installs two templates, for the
    forecasts and then for the observations; each is passed its own index
    pattern and its own mapping of MAPPINGS, and the entries of SETTINGS
    other than these two as they were.  The new loader has no path, type,
    region or date and no items. *)
Theorem init_installs_templates (s : gmap string pyvalue) :
  exists sf so,
    init s
    = (mkLoader None None None None [], so,
       [create_template "aqhi_realtime_forecasts." sf;
        create_template "aqhi_realtime_observations." so])
    /\ sf !! "index_patterns" = Some (PyList [PyStr "aqhi_realtime_forecasts.*"])
    /\ sf !! "mappings" = (list_to_map MAPPINGS : gmap string pyvalue) !! "forecasts"
    /\ so !! "index_patterns" = Some (PyList [PyStr "aqhi_realtime_observations.*"])
    /\ so !! "mappings" = (list_to_map MAPPINGS : gmap string pyvalue) !! "observations"
    /\ sf !! "mappings" <> so !! "mappings"
    /\ forall k, k <> "index_patterns" -> k <> "mappings" ->
         sf !! k = s !! k /\ so !! k = s !! k.
Proof.
  unfold init, MAPPINGS. cbn [install_templates].
  eexists _, _. split; [reflexivity|].
  split; [rewrite lookup_insert_ne by discriminate; apply lookup_insert_eq|].
  split; [rewrite lookup_insert_eq; vm_compute; reflexivity|].
  split; [rewrite lookup_insert_ne by discriminate; apply lookup_insert_eq|].
  split; [rewrite lookup_insert_eq; vm_compute; reflexivity|].
  split.
  - rewrite !lookup_insert_eq. intros H.
    apply (f_equal (fun o =>
             match o with
             | Some v =>
                 bind (getitem v "properties") (fun v =>
                 bind (getitem v "properties") (fun v =>
                 bind (getitem v "properties") (fun v =>
                 bind (getitem v "aqhi") (fun v => getitem v "type"))))
             | None => Raise TypeError
             end)) in H.
    vm_compute in H. discriminate H.
  - intros k Hk1 Hk2. now rewrite !lookup_insert_ne by congruence.
Qed.



(** ** [clean_indexes] *)





(** ** The command [add] *)

Lemma insert_by_perm {A : Type} (key : A -> Z) (x : A) (l : list A) :
  insert_by key x l ≡ₚ x :: l.
Proof.
  induction l as [|y l IH]; [reflexivity|]. simpl.
  destruct (key x <=? key y); [reflexivity|].
  rewrite IH. apply Permutation_swap.
Qed.

Lemma sort_by_perm {A : Type} (key : A -> Z) (l : list A) :
  sort_by key l ≡ₚ l.
Proof.
  induction l as [|x l IH]; [reflexivity|].
  unfold sort_by in *. simpl. now rewrite insert_by_perm, IH.
Qed.

Lemma insert_by_sorted {A : Type} (key : A -> Z) (x : A) (l : list A) :
  StronglySorted (fun a b => key a <= key b) l ->
  StronglySorted (fun a b => key a <= key b) (insert_by key x l).
Proof.
  induction l as [|y l IH]; intros Hs; simpl.
  - repeat constructor.
  - apply StronglySorted_inv in Hs as [Hs Hy].
    destruct (Z.leb_spec (key x) (key y)).
    + constructor; [now constructor|].
      constructor; [assumption|].
      eapply Forall_impl; [exact Hy|]. simpl. intros z Hz. lia.
    + constructor; [now apply IH|].
      rewrite insert_by_perm. constructor; [lia|assumption].
Qed.

Lemma sort_by_sorted {A : Type} (key : A -> Z) (l : list A) :
  StronglySorted (fun a b => key a <= key b) (sort_by key l).
Proof.
  induction l as [|x l IH]; [constructor|].
  unfold sort_by in *. simpl. now apply insert_by_sorted.
Qed.

Lemma insert_by_stable {A : Type} (key : A -> Z) (t : Z) (x : A) (l : list A) :
  List.filter (fun y => key y =? t) (insert_by key x l)
  = List.filter (fun y => key y =? t) (x :: l).
Proof.
  induction l as [|y l IH]; [reflexivity|]. cbn [insert_by].
  destruct (Z.leb_spec (key x) (key y)); [reflexivity|].
  cbn [List.filter] in *. rewrite IH.
  destruct (Z.eqb_spec (key x) t), (Z.eqb_spec (key y) t); try reflexivity. lia.
Qed.

Lemma sort_by_stable {A : Type} (key : A -> Z) (t : Z) (l : list A) :
  List.filter (fun y => key y =? t) (sort_by key l)
  = List.filter (fun y => key y =? t) l.
Proof.
  induction l as [|x l IH]; [reflexivity|].
  change (sort_by key (x :: l)) with (insert_by key x (sort_by key l)).
  rewrite insert_by_stable. cbn [List.filter]. now rewrite IH.
Qed.

(** X11: with a directory and no file, the files [add] loads are the files
    found under the directory whose name ends with .json, each joined to
    its directory, in the order of their modification times, files with the
    same time staying in the order the walk found them.  With a file, the
    directory is ignored. *)
Theorem files_to_process_sorted
    (walk : string -> list (string * list string * list string))
    (getmtime : string -> Z) (directory : string) :
  let found :=
    List.flat_map
      (fun '(root, dirs, files) =>
         path_join root <$> List.filter (fun f => endswith f ".json") files)
      (walk directory) in
  files_to_process walk getmtime None (Some directory) ≡ₚ found
  /\ StronglySorted (fun a b => getmtime a <= getmtime b)
       (files_to_process walk getmtime None (Some directory))
  /\ (forall t,
        List.filter (fun p => getmtime p =? t)
          (files_to_process walk getmtime None (Some directory))
        = List.filter (fun p => getmtime p =? t) found)
  /\ (forall p,
        In p (files_to_process walk getmtime None (Some directory)) ->
        exists root dirs files f,
          In (root, dirs, files) (walk directory) /\ In f files
          /\ endswith f ".json" = true /\ p = path_join root f)
  /\ forall f other, files_to_process walk getmtime (Some f) other = [f].
Proof.
  intros found. cbn [files_to_process]. fold found.
  split; [apply sort_by_perm|]. split; [apply sort_by_sorted|].
  split; [intros t; apply sort_by_stable|]. split; [|reflexivity].
  intros p Hp.
  apply (Permutation_in _ (sort_by_perm getmtime found)) in Hp.
  unfold found in Hp. apply in_flat_map in Hp as ([[root dirs] files] & Hw & Hp).
  apply list_elem_of_In, list_elem_of_fmap in Hp as (f & -> & Hf).
  apply list_elem_of_In, filter_In in Hf as [Hf Hjson].
  exists root, dirs, files, f. auto.
Qed.

Lemma init_loader (s : gmap string pyvalue) :
  (init s).1.1 = mkLoader None None None None [].
Proof. unfold init. now destruct (install_templates MAPPINGS s). Qed.


(** A load that returns has appended to the items the documents of the
    actions it submitted, and returns True. *)
Lemma load_data_ok (fs : string -> result pyvalue)
    (self self' : AqhiRealtimeLoader) (path : string) (v : pyvalue)
    (calls : list conn_call) :
  load_data fs self path = (Ok v, self', calls) ->
  v = PyBool true
  /\ items self' = (items self ++ (doc <$> submitted calls))%list.
Proof.
  rewrite load_data_emit.
  destruct (parse_filename (set_filepath self path)) as [[b|e] s1] eqn:Hparse;
    [|discriminate].
  destruct (features_of fs s1) as [features|e]; [|discriminate].
  destruct (emit s1 features) as [[acts s2] [e|]] eqn:He; [discriminate|].
  intros [= <- <- <-]. split; [reflexivity|].
  rewrite submitted_batches_flush. simpl.
  rewrite (emit_items _ _ _ _ _ He).
  now destruct (parse_filename_returns _ _ _ Hparse) as (_ & _ & -> & _).
Qed.

Section AddFacts.

Variable fs : string -> result pyvalue.
Variable json_pretty_print : list pyvalue -> string.

Lemma add_loop_cons_ok (path : string) (rest : list string)
    (s : gmap string pyvalue) :
  loads fs path ->
  add_loop fs json_pretty_print (path :: rest) s
  = let calls := (load_data fs (mkLoader None None None None []) path).2 in
    let '(r, s', events) := add_loop fs json_pretty_print rest (init s).1.2 in
    (r, s',
     ((Call <$> ((init s).2 ++ calls))
      ++ [Echo (format "GeoJSON features generated: {}"
                       [json_pretty_print (doc <$> submitted calls)])]
      ++ events)%list).
Proof.
  intros [v Hv]. cbn [add_loop].
  pose proof (init_loader s) as Hl.
  destruct (init s) as [[loader s'] installed]. simpl in Hl. subst loader.
  destruct (load_data fs _ path) as [[r loader'] calls] eqn:Hload.
  simpl in Hv. subst r.
  destruct (load_data_ok _ _ _ _ _ _ Hload) as [-> Hitems].
  simpl in Hitems. rewrite Hitems. reflexivity.
Qed.

Lemma add_loop_cons_raise (path : string) (rest : list string)
    (s : gmap string pyvalue) (e : pyerr) :
  (load_data fs (mkLoader None None None None []) path).1.1 = Raise e ->
  add_loop fs json_pretty_print (path :: rest) s
  = (Some (Uncaught e), (init s).1.2,
     Call <$> ((init s).2
               ++ (load_data fs (mkLoader None None None None []) path).2)%list).
Proof.
  intros He. cbn [add_loop].
  pose proof (init_loader s) as Hl.
  destruct (init s) as [[loader s'] installed]. simpl in Hl. subst loader.
  destruct (load_data fs _ path) as [[r loader'] calls].
  simpl in He. subst r. reflexivity.
Qed.

End AddFacts.

(** X12: an exception in the load of one file ends [add]: the files after
    it are not loaded, no loader is constructed for them and nothing of
    them is submitted or printed. *)
Theorem add_stops_at_first_failure (fs : string -> result pyvalue)
    (walk : string -> list (string * list string * list string))
    (getmtime : string -> Z) (json_pretty_print : list pyvalue -> string)
    (file_ directory : option string) (s : gmap string pyvalue)
    (before after : list string) (path : string) (e : pyerr) :
  files_to_process walk getmtime file_ directory = (before ++ path :: after)%list ->
  Forall (loads fs) before ->
  (load_data fs (mkLoader None None None None []) path).1.1 = Raise e ->
  (add fs walk getmtime json_pretty_print file_ directory s).1.1
  = Some (Uncaught e)
  /\ add fs walk getmtime json_pretty_print file_ directory s
     = add_loop fs json_pretty_print (before ++ [path]) s.
Proof.
  intros Hfiles Hbefore He.
  assert (Hadd : add fs walk getmtime json_pretty_print file_ directory s
                 = add_loop fs json_pretty_print (before ++ path :: after) s).
  { unfold add. rewrite <- Hfiles.
    destruct file_, directory; try reflexivity.
    simpl in Hfiles. now destruct before. }
  rewrite Hadd. clear Hadd Hfiles. revert s.
  induction Hbefore as [|p before Hp Hbefore IH]; intros s.
  - cbn [List.app]. rewrite !(add_loop_cons_raise _ _ _ _ _ e He).
    split; reflexivity.
  - cbn [List.app]. rewrite !add_loop_cons_ok by assumption. cbv zeta.
    specialize (IH (init s).1.2). destruct IH as [IH1 IH2]. rewrite IH2.
    destruct (add_loop fs json_pretty_print (before ++ [path]) (init s).1.2)
      as [[r s'] events] eqn:Hloop.
    rewrite IH2 in IH1. simpl in IH1. subst r. split; reflexivity.
Qed.

Lemma add_stops_at_first_failure_witness :
  (add Directory.fs Directory.walk Directory.getmtime Directory.json_pretty_print
       None (Some "/d") SETTINGS).1.1
  = Some (Uncaught AttributeError)
  /\ add Directory.fs Directory.walk Directory.getmtime Directory.json_pretty_print
         None (Some "/d") SETTINGS
     = add_loop Directory.fs Directory.json_pretty_print
         (["/d/AQ_FCST_ON_202403150600.json"] ++ ["/d/sub/readme.json"]) SETTINGS.
Proof.
  apply (add_stops_at_first_failure Directory.fs Directory.walk Directory.getmtime
           Directory.json_pretty_print None (Some "/d") SETTINGS
           ["/d/AQ_FCST_ON_202403150600.json"] ["/d/AQ_OBS_ON_202403150600.json"]
           "/d/sub/readme.json" AttributeError).
  - vm_compute. reflexivity.
  - constructor; [|constructor]. exists (PyBool true). vm_compute. reflexivity.
  - vm_compute. reflexivity.
Defined.




(** ** Loading a forecast file *)




(** ** The exceptions of the generator *)

(** X15: the exceptions a [next] can raise.  From a generator not yet
    started: the exception of opening or decoding the file; AttributeError
    when the loader has no path; UnboundLocalError for [features] when the
    type is neither of the two; KeyError for [features] when a forecast
    payload is an object without that key; TypeError when the payload
    cannot be subscripted or iterated.  At a feature: TypeError when it is
    not an object, KeyError for ID when it is an object without ID,
    AttributeError when the loader has no date. *)
Theorem next_raises (fs : string -> result pyvalue)
    (self self' : AqhiRealtimeLoader) (g g' : generator) (e : pyerr) :
  next fs self g = (Raised e, g', self') ->
  (g = Created
   /\ ((filepath self = None /\ e = AttributeError)
       \/ (exists path, filepath self = Some path /\ fs path = Raise e)
       \/ (type self <> Some "forecasts" /\ type self <> Some "observations"
           /\ e = UnboundLocalError "features")
       \/ (type self = Some "forecasts"
           /\ exists path data, filepath self = Some path /\ fs path = Ok data
              /\ ((exists d, data = PyDict d /\ d !! "features" = None
                             /\ e = KeyError "features")
                  \/ e = TypeError))))
  \/ (exists feature rest,
        pending fs self g = Ok (feature :: rest)
        /\ (((forall d, feature <> PyDict d) /\ e = TypeError)
            \/ (exists d, feature = PyDict d /\ d !! "ID" = None /\ e = KeyError "ID")
            \/ (date_ self = None /\ e = AttributeError))).
Proof.
  assert (Hresume : forall features,
    resume self features = (Raised e, g', self') ->
    exists feature rest,
      features = feature :: rest
      /\ (((forall d, feature <> PyDict d) /\ e = TypeError)
          \/ (exists d, feature = PyDict d /\ d !! "ID" = None /\ e = KeyError "ID")
          \/ (date_ self = None /\ e = AttributeError))).
  { intros [|feature rest]; simpl; [discriminate|].
    destruct (transform self feature) as [[a s']|err] eqn:Ht; [discriminate|].
    intros [= <- _ _]. exists feature, rest. split; [reflexivity|].
    revert Ht. unfold transform, getitem, bind.
    destruct feature as [| | | | | |d];
      try (intros [= <-]; left; split; [discriminate|reflexivity]).
    destruct (d !! "ID") as [v|] eqn:Hid.
    - destruct (date_ self); [|intros [= <-]; right; right; auto].
      rewrite lookup_delete_ne by discriminate. rewrite lookup_insert_eq. discriminate.
    - intros [= <-]. right. left. eauto. }
  destruct g as [|features|]; simpl.
  - destruct (features_of fs self) as [features|err] eqn:Hf.
    + intros H. right. destruct (Hresume _ H) as (feature & rest & -> & Hcase).
      eauto.
    + intros [= <- _ _]. left. split; [reflexivity|].
      revert Hf. unfold features_of, type_is.
      destruct (filepath self) as [path|]; [|intros [= <-]; left; auto].
      destruct (fs path) as [data|err'] eqn:Hfs;
        [|intros [= <-]; right; left; eauto].
      cbn [bind].
      destruct (type self) as [t|].
      * destruct (String.eqb_spec t "forecasts") as [->|Hnf].
        -- intros H. right. right. right. split; [reflexivity|].
           exists path, data. split; [reflexivity|]. split; [assumption|].
           revert H. unfold getitem, bind.
           destruct data as [| | | | | |d]; try (intros [= <-]; now right).
           destruct (d !! "features") as [v|] eqn:Hv.
           ++ destruct v; simpl; try discriminate; intros [= <-]; now right.
           ++ intros [= <-]. left. eauto.
        -- destruct (String.eqb_spec t "observations") as [->|Hno].
           ++ discriminate.
           ++ intros [= <-]. right. right. left.
              repeat split; congruence.
      * intros [= <-]. right. right. left. repeat split; congruence.
  - intros H. right. destruct (Hresume _ H) as (feature & rest & -> & Hcase).
    eauto.
  - discriminate.
Qed.

Lemma next_raises_witness :
  (Created = Created
   /\ ((filepath Samples.parsed = None /\ KeyError "features" = AttributeError)
       \/ (exists path, filepath Samples.parsed = Some path
                        /\ Samples.only Samples.observation path
                           = Raise (KeyError "features"))
       \/ (type Samples.parsed <> Some "forecasts"
           /\ type Samples.parsed <> Some "observations"
           /\ KeyError "features" = UnboundLocalError "features")
       \/ (type Samples.parsed = Some "forecasts"
           /\ exists path data,
                filepath Samples.parsed = Some path
                /\ Samples.only Samples.observation path = Ok data
                /\ ((exists d, data = PyDict d /\ d !! "features" = None
                               /\ KeyError "features" = KeyError "features")
                    \/ KeyError "features" = TypeError))))
  \/ (exists feature rest,
        pending (Samples.only Samples.observation) Samples.parsed Created
        = Ok (feature :: rest)
        /\ (((forall d, feature <> PyDict d) /\ KeyError "features" = TypeError)
            \/ (exists d, feature = PyDict d /\ d !! "ID" = None
                          /\ KeyError "features" = KeyError "ID")
            \/ (date_ Samples.parsed = None /\ KeyError "features" = AttributeError))).
Proof.
  apply (next_raises (Samples.only Samples.observation) Samples.parsed Samples.parsed
           Created Closed (KeyError "features")).
  vm_compute. reflexivity.
Defined.
